(** * mcp-server-mermaid: tool dispatch and export pipeline

    A shallow embedding of [src/index.ts] (the dispatcher and the tool
    catalogue), [src/tools.ts] (the six handlers) and [src/renderer.ts]
    (the export pipeline), followed by the properties of the
    specification that concern them.

    Conventions of the embedding.
    - A JavaScript string is the list of its UTF-16 code units
      ([jsstring]); [length], [slice] and [includes] count code units, as
      they do in JavaScript.
    - Values that cross the tool boundary are the scalars that the input
      schemas speak of ([JsVal]): strings, booleans, numbers (integers,
      printed in decimal) and [null]; a property that is absent reads as
      [undefined].
    - An exception is a value of [Thrown]; a computation that may throw
      and that touches the file system or the error stream is a function
      of the state returning [Thrown + A] with the new state.
    - The file system, [path] and the Unicode case tables belong to the
      Node runtime; they are the interface [Node], of which [MemNode] is a
      small instance on which the handlers can be run. *)

From Stdlib Require Import ZArith NArith List Ascii Lia.
From Stdlib Require String DecimalString.
From stdpp Require Import base option list gmap.
Import String.StringSyntax Ascii.AsciiSyntax.
Delimit Scope string_scope with string.

Local Open Scope N_scope.

(* ------------------------------------------------------------------ *)
(** ** JavaScript strings *)

Definition jsstring := list N.

Definition hexval (c : ascii) : N :=
  let n := N_of_ascii c in
  if (48 <=? n) && (n <=? 57) then n - 48
  else if (97 <=? n) && (n <=? 102) then n - 87
  else if (65 <=? n) && (n <=? 70) then n - 55
  else 0.

(** String literals are written as in the source, with the escapes [\n]
    (line feed), [\uXXXX] (a code unit in hexadecimal) and [\q] for the
    double quote. *)
Fixpoint unescape (cs : list ascii) : jsstring :=
  match cs with
  | [] => []
  | c :: r =>
    if (N_of_ascii c =? 92) then
      match r with
      | e :: r1 =>
        if (N_of_ascii e =? 110) then 10 :: unescape r1
        else if (N_of_ascii e =? 113) then 34 :: unescape r1
        else if (N_of_ascii e =? 117) then
          match r1 with
          | a :: b :: c1 :: d :: r2 =>
            (hexval a * 4096 + hexval b * 256 + hexval c1 * 16 + hexval d)
              :: unescape r2
          | _ => N_of_ascii c :: unescape r
          end
        else N_of_ascii c :: unescape r
      | [] => [N_of_ascii c]
      end
    else N_of_ascii c :: unescape r
  end.

Definition lit (s : String.string) : jsstring :=
  unescape (String.list_ascii_of_string s).
Arguments lit s%_string.

(** A template literal written over several source lines. *)
Definition lines (ls : list jsstring) : jsstring :=
  match ls with
  | [] => []
  | l :: r => l ++ concat (map (fun x => 10 :: x) r)
  end.

Fixpoint starts_with (needle hay : jsstring) : bool :=
  match needle, hay with
  | [], _ => true
  | _ :: _, [] => false
  | a :: n, b :: h => (a =? b) && starts_with n h
  end.

(** [String.prototype.includes] *)
Fixpoint includes (needle hay : jsstring) : bool :=
  starts_with needle hay ||
  match hay with
  | [] => false
  | _ :: h => includes needle h
  end.

(** [s.slice(0, n)] *)
Definition slice0 (n : nat) (s : jsstring) : jsstring := take n s.

Definition jslength (s : jsstring) : Z := Z.of_nat (length s).

(** [Math.round(len / 1024)]: halves round up. *)
Definition round_kb (len : Z) : Z := ((len + 512) / 1024)%Z.

(* ------------------------------------------------------------------ *)
(** ** Values, conversions, exceptions *)

Inductive JsVal :=
| JUndefined
| JNull
| JBool (b : bool)
| JNum (n : Z)
| JStr (s : jsstring).

Definition num_to_string (n : Z) : jsstring :=
  lit (DecimalString.NilZero.string_of_int (Z.to_int n)).

(** [`${v}`] *)
Definition ToString (v : JsVal) : jsstring :=
  match v with
  | JUndefined => lit "undefined"
  | JNull => lit "null"
  | JBool true => lit "true"
  | JBool false => lit "false"
  | JNum n => num_to_string n
  | JStr s => s
  end.

(** [typeof v], as Node prints it in an argument-type error. *)
Definition type_name (v : JsVal) : jsstring :=
  match v with
  | JUndefined => lit "undefined"
  | JNull => lit "null"
  | JBool _ => lit "boolean"
  | JNum _ => lit "number"
  | JStr _ => lit "string"
  end.

Definition truthy (v : JsVal) : bool :=
  match v with
  | JUndefined | JNull => false
  | JBool b => b
  | JNum n => negb (n =? 0)%Z
  | JStr s => match s with [] => false | _ => true end
  end.

(** [a || b] *)
Definition js_or (a b : JsVal) : JsVal := if truthy a then a else b.

Fixpoint jsstring_eqb (a b : jsstring) : bool :=
  match a, b with
  | [], [] => true
  | x :: a', y :: b' => (x =? y) && jsstring_eqb a' b'
  | _, _ => false
  end.

(** [v === 'literal'] *)
Definition is_str (v : JsVal) (s : jsstring) : bool :=
  match v with
  | JStr t => jsstring_eqb t s
  | _ => false
  end.

(** A destructuring default [x = d]: it applies to [undefined] only. *)
Definition default_to (d v : JsVal) : JsVal :=
  match v with
  | JUndefined => d
  | _ => v
  end.

Inductive Thrown :=
| JsError (message : jsstring)
| NonError (v : JsVal).

(** [error instanceof Error ? error.message : fallback] *)
Definition message_or (fallback : jsstring) (e : Thrown) : jsstring :=
  match e with
  | JsError m => m
  | NonError _ => fallback
  end.

(** The [TypeError] of V8 for a method call [expr.method(...)] on a
    receiver that is no string. *)
Definition no_method (expr method : jsstring) (recv : JsVal) : Thrown :=
  match recv with
  | JUndefined | JNull =>
    JsError (lit "Cannot read properties of " ++ ToString recv
             ++ lit " (reading '" ++ method ++ lit "')")
  | _ => JsError (expr ++ lit "." ++ method ++ lit " is not a function")
  end.

(** [expr.slice(0, n)] *)
Definition call_slice0 (expr : jsstring) (n : nat) (recv : JsVal)
  : Thrown + jsstring :=
  match recv with
  | JStr s => inr (slice0 n s)
  | _ => inl (no_method expr (lit "slice") recv)
  end.

(** [ERR_INVALID_ARG_TYPE] of [path.dirname] and [path.resolve]. *)
Definition path_arg (v : JsVal) : Thrown + jsstring :=
  match v with
  | JStr p => inr p
  | _ => inl (JsError (lit "The \qpath\q argument must be of type string. Received "
                       ++ match v with
                          | JUndefined => lit "undefined"
                          | JNull => lit "null"
                          | _ => lit "type " ++ type_name v ++ lit " ("
                                 ++ ToString v ++ lit ")"
                          end))
  end.

(* ------------------------------------------------------------------ *)
(** ** Buffers: UTF-8 and base64 *)

Definition is_high_surrogate (c : N) : bool := (55296 <=? c) && (c <=? 56319).
Definition is_low_surrogate (c : N) : bool := (56320 <=? c) && (c <=? 57343).

Definition replacement_bytes : list N := [239; 191; 189].

Definition utf8_3 (c : N) : list N :=
  [224 + c / 4096; 128 + (c / 64) mod 64; 128 + c mod 64].

Definition utf8_4 (cp : N) : list N :=
  [240 + cp / 262144; 128 + (cp / 4096) mod 64;
   128 + (cp / 64) mod 64; 128 + cp mod 64].

(** [Buffer.from(s)]: the UTF-8 bytes of a string; a surrogate without
    its partner becomes U+FFFD. *)
Fixpoint utf8_encode (s : jsstring) : list N :=
  match s with
  | [] => []
  | c :: r =>
    if c <? 128 then c :: utf8_encode r
    else if c <? 2048 then (192 + c / 64) :: (128 + c mod 64) :: utf8_encode r
    else if is_high_surrogate c then
      match r with
      | d :: r1 =>
        if is_low_surrogate d
        then utf8_4 (65536 + (c - 55296) * 1024 + (d - 56320)) ++ utf8_encode r1
        else replacement_bytes ++ utf8_encode r
      | [] => replacement_bytes
      end
    else if is_low_surrogate c then replacement_bytes ++ utf8_encode r
    else utf8_3 c ++ utf8_encode r
  end.

Definition base64_alphabet : jsstring :=
  lit "ABCDEFGHIJKLMNOPQRSTUVWXYZabcdefghijklmnopqrstuvwxyz0123456789+/".

Definition b64char (i : N) : N := nth (N.to_nat i) base64_alphabet 0.

(** [buf.toString('base64')] *)
Fixpoint base64_encode (bs : list N) : jsstring :=
  match bs with
  | [] => []
  | [a] => [b64char (a / 4); b64char ((a mod 4) * 16); 61; 61]
  | [a; b] =>
    [b64char (a / 4); b64char ((a mod 4) * 16 + b / 16);
     b64char ((b mod 16) * 4); 61]
  | a :: b :: c :: r =>
    b64char (a / 4) :: b64char ((a mod 4) * 16 + b / 16)
      :: b64char ((b mod 16) * 4 + c / 64) :: b64char (c mod 64)
      :: base64_encode r
  end.

(** The value of a base64 digit. *)
Definition b64val (c : N) : option N :=
  if (65 <=? c) && (c <=? 90) then Some (c - 65)
  else if (97 <=? c) && (c <=? 122) then Some (c - 71)
  else if (48 <=? c) && (c <=? 57) then Some (c + 4)
  else if c =? 43 then Some 62
  else if c =? 47 then Some 63
  else None.

(** [Buffer.from(s, 'base64')] on padded input, the inverse used by a
    caller that reads [base64Data]. *)
Fixpoint base64_decode (s : jsstring) : option (list N) :=
  match s with
  | [] => Some []
  | c1 :: c2 :: c3 :: c4 :: r =>
    match b64val c1, b64val c2 with
    | Some v1, Some v2 =>
      let b1 := v1 * 4 + v2 / 16 in
      if (c3 =? 61) && (c4 =? 61) then
        match r with [] => Some [b1] | _ => None end
      else
        match b64val c3 with
        | Some v3 =>
          let b2 := (v2 mod 16) * 16 + v3 / 4 in
          if c4 =? 61 then
            match r with [] => Some [b1; b2] | _ => None end
          else
            match b64val c4, base64_decode r with
            | Some v4, Some rest => Some (b1 :: b2 :: ((v3 mod 4) * 64 + v4) :: rest)
            | _, _ => None
            end
        | None => None
        end
    | _, _ => None
    end
  | _ => None
  end.

(* ------------------------------------------------------------------ *)
(** ** The Node runtime *)

(** What the program imports from Node: [String.prototype.toUpperCase],
    [path.dirname], [path.resolve], [fs.mkdirSync(dir, {recursive: true})]
    and [fs.writeFileSync(path, data)] over a file system [W]. A write
    that returns leaves the UTF-8 bytes of its data at the path. *)
Class Node (W : Type) := {
  toUpperCase : jsstring -> jsstring;
  dirname : jsstring -> jsstring;
  resolve : jsstring -> jsstring;
  mkdirSync : jsstring -> W -> Thrown + W;
  writeFileSync : jsstring -> jsstring -> W -> Thrown + W;
  readFile : W -> jsstring -> option (list N);
  writeFileSync_readFile :
    forall p d w w', writeFileSync p d w = inr w' ->
                     readFile w' p = Some (utf8_encode d)
}.

(** [logger.ts]: every line goes to the error stream. *)
Inductive Level := INFO | ERROR | WARN | DEBUG.

Record LogLine := {
  log_level : Level;
  log_context : jsstring;
  log_message : jsstring;
  log_error : option Thrown
}.

Record State (W : Type) := {
  fs : W;
  stderr : list LogLine
}.
Arguments fs {W} _.
Arguments stderr {W} _.

Definition M (W A : Type) : Type := State W -> (Thrown + A) * State W.

Definition ret {W A} (a : A) : M W A := fun st => (inr a, st).
Definition throw {W A} (e : Thrown) : M W A := fun st => (inl e, st).

Definition bind {W A B} (m : M W A) (k : A -> M W B) : M W B :=
  fun st =>
    match m st with
    | (inr a, st1) => k a st1
    | (inl e, st1) => (inl e, st1)
    end.

(** [try { m } catch (error) { h error }] *)
Definition try_catch {W A} (m : M W A) (h : Thrown -> M W A) : M W A :=
  fun st =>
    match m st with
    | (inr a, st1) => (inr a, st1)
    | (inl e, st1) => h e st1
    end.

(** A pure computation that may throw. *)
Definition lift {W A} (r : Thrown + A) : M W A :=
  fun st => (r, st).

Notation "'let!' x ':=' m 'in' k" := (bind m (fun x => k))
  (at level 10, x pattern, m at level 100, k at level 200).
Notation "m ';;' k" := (bind m (fun _ => k))
  (at level 100, k at level 200, right associativity).

Definition log {W} (lv : Level) (ctx msg : jsstring) (err : option Thrown)
  : M W unit :=
  fun st =>
    (inr tt,
     {| fs := fs st;
        stderr := stderr st ++ [ {| log_level := lv; log_context := ctx;
                                    log_message := msg; log_error := err |} ] |}).

(** [logger.info(message)] and [logger.error(message, error)] *)
Definition logger_info {W} (ctx msg : jsstring) : M W unit :=
  log INFO ctx msg None.
Definition logger_error {W} (ctx msg : jsstring) (e : Thrown) : M W unit :=
  log ERROR ctx msg (Some e).

(* ------------------------------------------------------------------ *)
(** ** renderer.ts *)

Record ExportOptions := {
  o_diagramCode : JsVal;
  o_format : JsVal;
  o_theme : JsVal;
  o_width : JsVal;
  o_height : JsVal;
  o_outputPath : JsVal
}.

Record ExportResult := {
  success : bool;
  outputPath : option jsstring;
  base64Data : option jsstring;
  size : jsstring;
  details : jsstring
}.

Record Palette := {
  nodeColor : jsstring;
  strokeColor : jsstring;
  edgeColor : jsstring;
  textColor : jsstring
}.

Definition theme_default : Palette :=
  {| nodeColor := lit "#fff"; strokeColor := lit "#333";
     edgeColor := lit "#333"; textColor := lit "#333" |}.
Definition theme_dark : Palette :=
  {| nodeColor := lit "#2d2d30"; strokeColor := lit "#d4d4d4";
     edgeColor := lit "#d4d4d4"; textColor := lit "#d4d4d4" |}.
Definition theme_forest : Palette :=
  {| nodeColor := lit "#f9f9f9"; strokeColor := lit "#4a5d23";
     edgeColor := lit "#4a5d23"; textColor := lit "#2d3748" |}.
Definition theme_neutral : Palette :=
  {| nodeColor := lit "#f8f9fa"; strokeColor := lit "#6c757d";
     edgeColor := lit "#6c757d"; textColor := lit "#495057" |}.

(** The own properties of the object literal [themes]. *)
Definition themes : list (jsstring * Palette) :=
  [ (lit "default", theme_default); (lit "dark", theme_dark);
    (lit "forest", theme_forest); (lit "neutral", theme_neutral) ].

(** [themes] is an object literal, so a key that is none of its own is
    looked up on [Object.prototype]; these are its properties, each of
    them an object (a function, or the prototype itself). *)
Definition object_prototype_properties : list jsstring :=
  [ lit "constructor"; lit "__defineGetter__"; lit "__defineSetter__";
    lit "hasOwnProperty"; lit "__lookupGetter__"; lit "__lookupSetter__";
    lit "isPrototypeOf"; lit "propertyIsEnumerable"; lit "toString";
    lit "valueOf"; lit "__proto__"; lit "toLocaleString" ].

(** What [getThemeColors] returns: one of the palettes, or the object
    found on the prototype, which has none of the four color fields. *)
Inductive ThemeColors :=
| OwnPalette (p : Palette)
| Inherited (key : jsstring).

Fixpoint own_property {A} (key : jsstring) (obj : list (jsstring * A)) : option A :=
  match obj with
  | [] => None
  | (k, v) :: r => if jsstring_eqb k key then Some v else own_property key r
  end.

Definition has_key (key : jsstring) (ks : list jsstring) : bool :=
  existsb (jsstring_eqb key) ks.

(** [themes[theme] || themes.default] *)
Definition getThemeColors (theme : JsVal) : ThemeColors :=
  let key := ToString theme in
  match own_property key themes with
  | Some p => OwnPalette p
  | None =>
    if has_key key object_prototype_properties then Inherited key
    else OwnPalette theme_default
  end.

(** [themeColors.field] *)
Definition color (field : Palette -> jsstring) (tc : ThemeColors) : JsVal :=
  match tc with
  | OwnPalette p => JStr (field p)
  | Inherited _ => JUndefined
  end.

Definition generateSVGTemplate (diagramCode theme : JsVal) : Thrown + jsstring :=
  let themeColors := getThemeColors theme in
  match call_slice0 (lit "diagramCode") 50 diagramCode with
  | inl e => inl e
  | inr head =>
    inr (lines [
      lit "<?xml version=\q1.0\q encoding=\qUTF-8\q?>";
      lit "<svg width=\q400\q height=\q300\q xmlns=\qhttp://www.w3.org/2000/svg\q>";
      lit "  <defs>";
      lit "    <style>";
      lit "      .node { fill: " ++ ToString (color nodeColor themeColors)
        ++ lit "; stroke: " ++ ToString (color strokeColor themeColors)
        ++ lit "; stroke-width: 2; }";
      lit "      .edge { stroke: " ++ ToString (color edgeColor themeColors)
        ++ lit "; stroke-width: 2; }";
      lit "      .label { fill: " ++ ToString (color textColor themeColors)
        ++ lit "; font-family: Arial, sans-serif; font-size: 12px; }";
      lit "    </style>";
      lit "  </defs>";
      lit "  ";
      lit "  <!-- Generated from Mermaid code: " ++ head ++ lit "... -->";
      lit "  <rect class=\qnode\q x=\q50\q y=\q50\q width=\q100\q height=\q40\q rx=\q5\q/>";
      lit "  <text class=\qlabel\q x=\q100\q y=\q75\q text-anchor=\qmiddle\q>Start</text>";
      lit "  ";
      lit "  <line class=\qedge\q x1=\q150\q y1=\q70\q x2=\q200\q y2=\q70\q marker-end=\qurl(#arrow)\q/>";
      lit "  ";
      lit "  <rect class=\qnode\q x=\q200\q y=\q50\q width=\q100\q height=\q40\q rx=\q5\q/>";
      lit "  <text class=\qlabel\q x=\q250\q y=\q75\q text-anchor=\qmiddle\q>Process</text>";
      lit "  ";
      lit "  <defs>";
      lit "    <marker id=\qarrow\q markerWidth=\q10\q markerHeight=\q10\q refX=\q9\q refY=\q3\q orient=\qauto\q>";
      lit "      <polygon points=\q0 0, 10 3, 0 6\q fill=\q"
        ++ ToString (color edgeColor themeColors) ++ lit "\q/>";
      lit "    </marker>";
      lit "  </defs>";
      lit "</svg>" ])
  end.

Definition generateHTMLTemplate (diagramCode theme : JsVal) : jsstring :=
  lines [
    lit "<!DOCTYPE html>";
    lit "<html lang=\qen\q>";
    lit "<head>";
    lit "    <meta charset=\qUTF-8\q>";
    lit "    <meta name=\qviewport\q content=\qwidth=device-width, initial-scale=1.0\q>";
    lit "    <title>Mermaid Diagram</title>";
    lit "    <script src=\qhttps://cdn.jsdelivr.net/npm/mermaid@10.6.1/dist/mermaid.min.js\q></script>";
    lit "    <style>";
    lit "        body {";
    lit "            margin: 0;";
    lit "            padding: 20px;";
    lit "            font-family: -apple-system, BlinkMacSystemFont, 'Segoe UI', Roboto, sans-serif;";
    lit "            " ++ (if is_str theme (lit "dark")
                           then lit "background: #1e1e1e; color: #d4d4d4;"
                           else lit "background: white; color: black;");
    lit "        }";
    lit "        .diagram-container {";
    lit "            text-align: center;";
    lit "            padding: 20px;";
    lit "        }";
    lit "    </style>";
    lit "</head>";
    lit "<body>";
    lit "    <div class=\qdiagram-container\q>";
    lit "        <h1>Generated Diagram</h1>";
    lit "        <div class=\qmermaid\q>";
    ToString diagramCode;
    lit "        </div>";
    lit "    </div>";
    lit "    ";
    lit "    <script>";
    lit "        mermaid.initialize({ ";
    lit "            startOnLoad: true,";
    lit "            theme: '" ++ ToString theme ++ lit "',";
    lit "            securityLevel: 'loose'";
    lit "        });";
    lit "    </script>";
    lit "</body>";
    lit "</html>" ].

(** [`${Math.round(s.length / 1024)}KB`] *)
Definition size_kb (s : jsstring) : jsstring :=
  num_to_string (round_kb (jslength s)) ++ lit "KB".

Definition png_base64 : jsstring :=
  lit "iVBORw0KGgoAAAANSUhEUgAAAAEAAAABCAYAAAAfFcSJAAAADUlEQVR42mNkYPhfDwAChwGA60e6kgAAAABJRU5ErkJggg==".

Definition pdf_base64 : jsstring :=
  lit "JVBERi0xLjQKJeL+LywKMSAwIG9iago8PAovVHlwZSAvQ2F0YWxvZwovUGFnZXMgMiAwIFIKPj4KZW5kb2JqCjIgMCBvYmoKPDwKL1R5cGUgL1BhZ2VzCi9LaWRzIFsgXQovQ291bnQgMAo+PgplbmRvYmoKCnRyYWlsZXIKPDwKL1NpemUgMgovUm9vdCAxIDAgUgo+PgpzdGFydHhyZWYKMTU4CiUlRU9G".

Section Renderer.
Context {W : Type} `{Node W}.

Definition fs_op (op : W -> Thrown + W) : M W unit :=
  fun st =>
    match op (fs st) with
    | inr w => (inr tt, {| fs := w; stderr := stderr st |})
    | inl e => (inl e, st)
    end.

(** [dirname] rejects a path that is no string; a failure of
    [mkdirSync] is swallowed. *)
Definition ensureDirectoryExists (filePath : JsVal) : M W unit :=
  let! p := lift (path_arg filePath) in
  let dir := dirname p in
  try_catch (fs_op (mkdirSync dir)) (fun _ => ret tt).

(** [writeFileSync(outputPath, data)] for a path that passed
    [ensureDirectoryExists]. *)
Definition write_file (filePath : JsVal) (data : jsstring) : M W unit :=
  let! p := lift (path_arg filePath) in
  fs_op (writeFileSync p data).

Definition resolved (filePath : JsVal) : M W jsstring :=
  let! p := lift (path_arg filePath) in
  ret (resolve p).

Definition renderSVG (diagramCode theme outputPath_ : JsVal) : M W ExportResult :=
  let! svg := lift (generateSVGTemplate diagramCode theme) in
  if truthy outputPath_ then
    ensureDirectoryExists outputPath_ ;;
    write_file outputPath_ svg ;;
    let! abs := resolved outputPath_ in
    ret {| success := true;
           outputPath := Some abs;
           base64Data := None;
           size := size_kb svg;
           details := lit "SVG exported successfully with " ++ ToString theme
                      ++ lit " theme" |}
  else
    ret {| success := true;
           outputPath := None;
           base64Data := Some (base64_encode (utf8_encode svg));
           size := size_kb svg;
           details := lit "SVG generated as base64 with " ++ ToString theme
                      ++ lit " theme" |}.

Definition renderPNG (diagramCode theme width height outputPath_ : JsVal)
  : M W ExportResult :=
  let details_ := lit "PNG would be rendered at " ++ ToString width ++ lit "x"
                  ++ ToString height ++ lit " with " ++ ToString theme
                  ++ lit " theme" in
  if truthy outputPath_ then
    let! head := lift (call_slice0 (lit "diagramCode") 50 diagramCode) in
    let placeholder := lit "PNG export placeholder for diagram: " ++ head
                       ++ lit "..." in
    ensureDirectoryExists outputPath_ ;;
    write_file outputPath_ placeholder ;;
    let! abs := resolved outputPath_ in
    ret {| success := true; outputPath := Some abs; base64Data := None;
           size := lit "~150KB"; details := details_ |}
  else
    ret {| success := true; outputPath := None;
           base64Data := Some png_base64;
           size := lit "~150KB"; details := details_ |}.

Definition renderPDF (diagramCode theme outputPath_ : JsVal) : M W ExportResult :=
  let details_ := lit "PDF would be generated with " ++ ToString theme
                  ++ lit " theme" in
  if truthy outputPath_ then
    let! head := lift (call_slice0 (lit "diagramCode") 50 diagramCode) in
    let placeholder := lit "PDF export placeholder for diagram: " ++ head
                       ++ lit "..." in
    ensureDirectoryExists outputPath_ ;;
    write_file outputPath_ placeholder ;;
    let! abs := resolved outputPath_ in
    ret {| success := true; outputPath := Some abs; base64Data := None;
           size := lit "~200KB"; details := details_ |}
  else
    ret {| success := true; outputPath := None;
           base64Data := Some pdf_base64;
           size := lit "~200KB"; details := details_ |}.

Definition renderHTML (diagramCode theme outputPath_ : JsVal) : M W ExportResult :=
  let html := generateHTMLTemplate diagramCode theme in
  if truthy outputPath_ then
    ensureDirectoryExists outputPath_ ;;
    write_file outputPath_ html ;;
    let! abs := resolved outputPath_ in
    ret {| success := true; outputPath := Some abs; base64Data := None;
           size := size_kb html;
           details := lit "Interactive HTML exported with " ++ ToString theme
                      ++ lit " theme" |}
  else
    ret {| success := true; outputPath := None;
           base64Data := Some (base64_encode (utf8_encode html));
           size := size_kb html;
           details := lit "Interactive HTML generated with " ++ ToString theme
                      ++ lit " theme" |}.

Definition exportDiagram (options : ExportOptions) : M W ExportResult :=
  let diagramCode := o_diagramCode options in
  let format := o_format options in
  let theme := default_to (JStr (lit "default")) (o_theme options) in
  let width := default_to (JNum 1920) (o_width options) in
  let height := default_to (JNum 1080) (o_height options) in
  let outputPath_ := o_outputPath options in
  logger_info (lit "MermaidRenderer")
    (lit "Rendering diagram to " ++ ToString format ++ lit " with theme "
     ++ ToString theme) ;;
  try_catch
    (if is_str format (lit "svg") then renderSVG diagramCode theme outputPath_
     else if is_str format (lit "png")
       then renderPNG diagramCode theme width height outputPath_
     else if is_str format (lit "pdf") then renderPDF diagramCode theme outputPath_
     else if is_str format (lit "html") then renderHTML diagramCode theme outputPath_
     else throw (JsError (lit "Unsupported format: " ++ ToString format)))
    (fun error =>
       logger_error (lit "MermaidRenderer") (lit "Export failed:") error ;;
       throw error).

End Renderer.

(* ------------------------------------------------------------------ *)
(** ** tools.ts *)

Inductive ContentType := text_type | image_type.

Record ContentBlock := {
  type : ContentType;
  text : option jsstring;
  data : option jsstring;
  mimeType : option jsstring
}.

Record ToolResponse := { content : list ContentBlock }.

Definition text_block (t : jsstring) : ContentBlock :=
  {| type := text_type; text := Some t; data := None; mimeType := None |}.

Record ValidationError := { line : Z; message : jsstring }.

(** The argument object of a request: its own properties. *)
Abbreviation Obj := (gmap (list N) JsVal).

(** [args.key] *)
Definition prop (a : Obj) (key : jsstring) : JsVal :=
  match a !! key with
  | Some v => v
  | None => JUndefined
  end.

(** An object destructuring pattern [{ x, y = d, ... }]: the properties
    in order, each with its default initializer if it has one. *)
Definition Pattern := list (jsstring * option JsVal).

Definition bind_property (a : Obj) (p : jsstring * option JsVal)
  : jsstring * JsVal :=
  (fst p, match snd p with
          | Some d => default_to d (prop a (fst p))
          | None => prop a (fst p)
          end).

(** [const pattern = args]: the variables bound, or the [TypeError] of
    V8 when [args] is [undefined]. *)
Definition destructure (pat : Pattern) (args : option Obj)
  : Thrown + list (jsstring * JsVal) :=
  match args with
  | Some a => inr (map (bind_property a) pat)
  | None =>
    inl (JsError (lit "Cannot destructure property '"
                  ++ match pat with (x, _) :: _ => x | [] => [] end
                  ++ lit "' of 'args' as it is undefined."))
  end.

(** The value of a bound variable. *)
Definition var (env : list (jsstring * JsVal)) (x : jsstring) : JsVal :=
  match own_property x env with
  | Some v => v
  | None => JUndefined
  end.

(** [xs.join(sep)] *)
Fixpoint join (sep : jsstring) (xs : list jsstring) : jsstring :=
  match xs with
  | [] => []
  | [x] => x
  | x :: r => x ++ sep ++ join sep r
  end.

(** [xs.map((x, i) => f x i)] *)
Fixpoint mapi_from {A B} (i : Z) (f : A -> Z -> B) (xs : list A) : list B :=
  match xs with
  | [] => []
  | x :: r => f x i :: mapi_from (i + 1)%Z f r
  end.

Record CodeAnalysis := {
  detectedType : jsstring;
  ca_complexity : jsstring;
  elements : list jsstring
}.

Definition analyzeCodeStructure (code language : JsVal) : CodeAnalysis :=
  {| detectedType := lit "flowchart";
     ca_complexity := lit "medium";
     elements := [lit "functions"; lit "variables"; lit "classes"] |}.

Definition generateDiagramCode (analysis : CodeAnalysis)
           (diagramType includeDetails : JsVal) : jsstring :=
  lit "flowchart TD\n    A[Start] --> B[Process]\n    B --> C[End]".

Record DiagramAnalysis := {
  da_type : jsstring;
  da_nodeCount : Z;
  edgeCount : Z;
  complexityScore : Z;
  da_details : jsstring;
  recommendations : list jsstring
}.

Definition performDiagramAnalysis (diagramCode analysisType : JsVal)
  : DiagramAnalysis :=
  {| da_type := lit "flowchart";
     da_nodeCount := 3;
     edgeCount := 2;
     complexityScore := 5;
     da_details := lit "Simple linear flow";
     recommendations := [lit "Add decision points"; lit "Include error handling"] |}.

Record Suggestion := {
  title : jsstring;
  priority : jsstring;
  description : jsstring;
  implementation : jsstring;
  optimizedCode : JsVal
}.

Definition generateImprovementSuggestions (diagramCode context audience : JsVal)
  : list Suggestion :=
  [ {| title := lit "Improve Readability";
       priority := lit "High";
       description := lit "Add clearer labels and grouping";
       implementation := lit "Use subgraphs and better node labels";
       optimizedCode := diagramCode |} ].

Definition generateWorkflowDiagram (description_ type_ includeDecisions format : JsVal)
  : jsstring :=
  if is_str format (lit "sequence") then
    lit "sequenceDiagram\n    participant A as User\n    participant B as System\n    A->>B: Request\n    B-->>A: Response"
  else if is_str format (lit "state") then
    lit "stateDiagram-v2\n    [*] --> Idle\n    Idle --> Processing\n    Processing --> [*]"
  else if is_str format (lit "gantt") then
    lit "gantt\n    title Project Timeline\n    dateFormat YYYY-MM-DD\n    section Phase 1\n    Task 1: 2024-01-01, 3d"
  else
    lit "flowchart TD\n    A[Start] --> B{Decision}\n    B -->|Yes| C[Action]\n    B -->|No| D[Alternative]\n    C --> E[End]\n    D --> E".

Record Validation := {
  isValid : bool;
  diagramType : jsstring;
  nodeCount : Z;
  complexity : jsstring;
  errors : list ValidationError;
  suggestions : list jsstring;
  correctedCode : option jsstring
}.

Definition performSyntaxValidation (diagramCode strictMode : JsVal) : Validation :=
  {| isValid := true;
     diagramType := lit "flowchart";
     nodeCount := 3;
     complexity := lit "low";
     errors := [];
     suggestions := [];
     correctedCode := None |}.

(** The destructuring pattern of each handler, as its first statement
    writes it. *)
Definition pattern_generateDiagramFromCode : Pattern :=
  [ (lit "code", None); (lit "diagram_type", Some (JStr (lit "auto")));
    (lit "language", None); (lit "include_details", Some (JBool false)) ].

Definition pattern_analyzeDiagramStructure : Pattern :=
  [ (lit "diagram_code", None); (lit "analysis_type", Some (JStr (lit "full"))) ].

Definition pattern_suggestDiagramImprovements : Pattern :=
  [ (lit "diagram_code", None); (lit "context", None);
    (lit "audience", Some (JStr (lit "general"))) ].

Definition pattern_createWorkflowDiagram : Pattern :=
  [ (lit "workflow_description", None); (lit "workflow_type", None);
    (lit "include_decision_points", Some (JBool true));
    (lit "format", Some (JStr (lit "flowchart"))) ].

Definition pattern_exportDiagramFormats : Pattern :=
  [ (lit "diagram_code", None); (lit "format", None); (lit "output_path", None);
    (lit "theme", Some (JStr (lit "default")));
    (lit "width", Some (JNum 1920)); (lit "height", Some (JNum 1080)) ].

Definition pattern_validateDiagramSyntax : Pattern :=
  [ (lit "diagram_code", None); (lit "strict_mode", Some (JBool false));
    (lit "provide_suggestions", Some (JBool true)) ].

(** [throw new Error(`${prefix}: ${error instanceof Error ? error.message
    : 'Unknown error'}`)] *)
Definition rethrow {W A} (prefix : jsstring) (error : Thrown) : M W A :=
  throw (JsError (prefix ++ lit ": " ++ message_or (lit "Unknown error") error)).

(** [validation.content[0]?.text?.includes(needle)] *)
Definition first_text_includes (needle : jsstring) (r : ToolResponse) : bool :=
  match content r with
  | b :: _ => match text b with
              | Some t => includes needle t
              | None => false
              end
  | [] => false
  end.

Section Tools.
Context {W : Type} `{Node W}.

Definition validateDiagramSyntax (args : option Obj) : M W ToolResponse :=
  let! v := lift (destructure pattern_validateDiagramSyntax args) in
  let diagram_code := var v (lit "diagram_code") in
  let strict_mode := var v (lit "strict_mode") in
  let provide_suggestions := var v (lit "provide_suggestions") in
  logger_info (lit "MermaidTools")
    (lit "Validating diagram syntax (strict: " ++ ToString strict_mode ++ lit ")") ;;
  try_catch
    (let validation := performSyntaxValidation diagram_code strict_mode in
     let response := lit "# Syntax Validation Results\n\n" in
     let response :=
       if isValid validation then
         response
           ++ lit "\u2705 **Valid Mermaid syntax**\n\n"
           ++ lit "## Diagram Info\n"
           ++ (lit "- **Type**: " ++ diagramType validation ++ lit "\n")
           ++ (lit "- **Nodes**: " ++ num_to_string (nodeCount validation) ++ lit "\n")
           ++ (lit "- **Complexity**: " ++ complexity validation ++ lit "\n")
       else
         let response :=
           response
             ++ lit "\u274C **Invalid syntax found**\n\n"
             ++ lit "## Errors\n"
             ++ (join (lit "\n")
                      (map (fun e => lit "- **Line " ++ num_to_string (line e)
                                     ++ lit "**: " ++ message e)
                           (errors validation))
                 ++ lit "\n\n") in
         if truthy provide_suggestions
            && (0 <? length (suggestions validation))%nat then
           let response :=
             response
               ++ lit "## Suggested Fixes\n"
               ++ (join (lit "\n")
                        (map (fun s => lit "- " ++ s) (suggestions validation))
                   ++ lit "\n\n") in
           match correctedCode validation with
           | Some corrected =>
             response ++ lit "## Corrected Code\n```mermaid\n" ++ corrected
                      ++ lit "\n```"
           | None => response
           end
         else response in
     ret {| content := [text_block response] |})
    (rethrow (lit "Failed to validate syntax")).

Definition generateDiagramFromCode (args : option Obj) : M W ToolResponse :=
  let! v := lift (destructure pattern_generateDiagramFromCode args) in
  let code := var v (lit "code") in
  let diagram_type := var v (lit "diagram_type") in
  let language := var v (lit "language") in
  let include_details := var v (lit "include_details") in
  logger_info (lit "MermaidTools")
    (lit "Generating " ++ ToString diagram_type ++ lit " diagram from "
     ++ ToString (js_or language (JStr (lit "unknown"))) ++ lit " code") ;;
  try_catch
    (let analysis := analyzeCodeStructure code language in
     let diagramCode := generateDiagramCode analysis diagram_type include_details in
     let! validation :=
       validateDiagramSyntax (Some {[ lit "diagram_code" := JStr diagramCode ]}) in
     ret {| content := [ text_block (
       lit "# Generated " ++ detectedType analysis
         ++ lit " Diagram\n\n```mermaid\n" ++ diagramCode
         ++ lit "\n```\n\n## Analysis Summary\n- **Detected Type**: "
         ++ detectedType analysis
         ++ lit "\n- **Complexity**: " ++ ca_complexity analysis
         ++ lit "\n- **Elements**: " ++ join (lit ", ") (elements analysis)
         ++ lit "\n- **Syntax Valid**: "
         ++ (if first_text_includes (lit "\u2705") validation
             then lit "Yes" else lit "No")) ] |})
    (rethrow (lit "Failed to generate diagram from code")).

Definition analyzeDiagramStructure (args : option Obj) : M W ToolResponse :=
  let! v := lift (destructure pattern_analyzeDiagramStructure args) in
  let diagram_code := var v (lit "diagram_code") in
  let analysis_type := var v (lit "analysis_type") in
  logger_info (lit "MermaidTools")
    (lit "Analyzing diagram structure: " ++ ToString analysis_type) ;;
  try_catch
    (let analysis := performDiagramAnalysis diagram_code analysis_type in
     ret {| content := [ text_block (
       lit "# Diagram Structure Analysis\n\n## Overview\n- **Type**: "
         ++ da_type analysis
         ++ lit "\n- **Nodes**: " ++ num_to_string (da_nodeCount analysis)
         ++ lit "\n- **Edges**: " ++ num_to_string (edgeCount analysis)
         ++ lit "\n- **Complexity Score**: "
         ++ num_to_string (complexityScore analysis)
         ++ lit "/10\n\n## Structure Details\n" ++ da_details analysis
         ++ lit "\n\n## Recommendations\n"
         ++ join (lit "\n")
                 (map (fun r => lit "- " ++ r) (recommendations analysis))) ] |})
    (rethrow (lit "Failed to analyze diagram structure")).

Definition suggestDiagramImprovements (args : option Obj) : M W ToolResponse :=
  let! v := lift (destructure pattern_suggestDiagramImprovements args) in
  let diagram_code := var v (lit "diagram_code") in
  let context := var v (lit "context") in
  let audience := var v (lit "audience") in
  logger_info (lit "MermaidTools")
    (lit "Suggesting improvements for " ++ ToString audience ++ lit " audience") ;;
  try_catch
    (let suggestions_ :=
       generateImprovementSuggestions diagram_code context audience in
     ret {| content := [ text_block (
       lit "# Diagram Improvement Suggestions\n\n## For " ++ ToString audience
         ++ lit " audience\n\n"
         ++ join (lit "\n")
              (mapi_from 0 (fun s i =>
                 lit "### " ++ num_to_string (i + 1) ++ lit ". " ++ title s
                   ++ lit "\n**Priority**: " ++ priority s
                   ++ lit "\n**Description**: " ++ description s
                   ++ lit "\n**Implementation**: " ++ implementation s
                   ++ lit "\n") suggestions_)
         ++ lit "\n\n## Optimized Version\n```mermaid\n"
         ++ ToString
              (js_or (match find (fun s => truthy (optimizedCode s)) suggestions_ with
                      | Some s => optimizedCode s
                      | None => JUndefined
                      end)
                     diagram_code)
         ++ lit "\n```") ] |})
    (rethrow (lit "Failed to suggest improvements")).

(** [x.toUpperCase()] *)
Definition call_toUpperCase (expr : jsstring) (recv : JsVal) : Thrown + jsstring :=
  match recv with
  | JStr s => inr (toUpperCase s)
  | _ => inl (no_method expr (lit "toUpperCase") recv)
  end.

(** [x.length > n], which is [false] when [x.length] is [undefined]. *)
Definition length_gt (recv : JsVal) (n : nat) : bool :=
  match recv with
  | JStr s => (n <? length s)%nat
  | _ => false
  end.

Definition createWorkflowDiagram (args : option Obj) : M W ToolResponse :=
  let! v := lift (destructure pattern_createWorkflowDiagram args) in
  let workflow_description := var v (lit "workflow_description") in
  let workflow_type := var v (lit "workflow_type") in
  let include_decision_points := var v (lit "include_decision_points") in
  let format := var v (lit "format") in
  logger_info (lit "MermaidTools")
    (lit "Creating " ++ ToString workflow_type ++ lit " workflow diagram in "
     ++ ToString format ++ lit " format") ;;
  try_catch
    (let workflowDiagram :=
       generateWorkflowDiagram workflow_description workflow_type
                               include_decision_points format in
     let! upper := lift (call_toUpperCase (lit "workflow_type") workflow_type) in
     let! head := lift (call_slice0 (lit "workflow_description") 100
                                    workflow_description) in
     ret {| content := [ text_block (
       lit "# " ++ upper ++ lit " Workflow Diagram\n\n```mermaid\n"
         ++ workflowDiagram
         ++ lit "\n```\n\n## Workflow Features\n- **Type**: "
         ++ ToString workflow_type
         ++ lit "\n- **Format**: " ++ ToString format
         ++ lit "\n- **Decision Points**: "
         ++ (if truthy include_decision_points
             then lit "Included" else lit "Not included")
         ++ lit "\n- **Generated from**: " ++ head
         ++ (if length_gt workflow_description 100 then lit "..." else [])) ] |})
    (rethrow (lit "Failed to create workflow diagram")).

Definition exportDiagramFormats (args : option Obj) : M W ToolResponse :=
  let! v := lift (destructure pattern_exportDiagramFormats args) in
  let diagram_code := var v (lit "diagram_code") in
  let format := var v (lit "format") in
  let output_path := var v (lit "output_path") in
  let theme := var v (lit "theme") in
  let width := var v (lit "width") in
  let height := var v (lit "height") in
  logger_info (lit "MermaidTools")
    (lit "Exporting diagram to " ++ ToString format ++ lit " format with "
     ++ ToString theme ++ lit " theme") ;;
  try_catch
    (let! exportResult :=
       exportDiagram {| o_diagramCode := diagram_code;
                        o_format := format;
                        o_theme := theme;
                        o_width := width;
                        o_height := height;
                        o_outputPath := output_path |} in
     let! upper := lift (call_toUpperCase (lit "format") format) in
     ret {| content := [ text_block (
       lit "# Diagram Export Complete\n\n- **Format**: " ++ upper
         ++ lit "\n- **Theme**: " ++ ToString theme
         ++ lit "\n- **Dimensions**: " ++ ToString width ++ lit "x"
         ++ ToString height
         ++ lit "\n- **Output**: "
         ++ (match outputPath exportResult with
             | Some ((_ :: _) as p) => p
             | _ => lit "Base64 encoded"
             end)
         ++ lit "\n- **Size**: " ++ size exportResult
         ++ lit "\n\n## Export Details\n" ++ details exportResult) ] |})
    (rethrow (lit "Failed to export diagram")).

End Tools.

(* ------------------------------------------------------------------ *)
(** ** index.ts *)

Record PropertySchema := {
  p_type : jsstring;
  p_enum : option (list jsstring);
  p_description : jsstring;
  p_default : option JsVal
}.

Record InputSchema := {
  properties : list (jsstring * PropertySchema);
  required : list jsstring
}.

Record ToolDescriptor := {
  name : jsstring;
  t_description : jsstring;
  inputSchema : InputSchema
}.

Definition string_prop (desc : jsstring) : PropertySchema :=
  {| p_type := lit "string"; p_enum := None; p_description := desc;
     p_default := None |}.

Definition enum_prop (values : list jsstring) (desc : jsstring)
           (dflt : option JsVal) : PropertySchema :=
  {| p_type := lit "string"; p_enum := Some values; p_description := desc;
     p_default := dflt |}.

Definition boolean_prop (desc : jsstring) (dflt : bool) : PropertySchema :=
  {| p_type := lit "boolean"; p_enum := None; p_description := desc;
     p_default := Some (JBool dflt) |}.

Definition number_prop (desc : jsstring) (dflt : Z) : PropertySchema :=
  {| p_type := lit "number"; p_enum := None; p_description := desc;
     p_default := Some (JNum dflt) |}.

(** The answer to [ListToolsRequestSchema]. *)
Definition listTools : list ToolDescriptor :=
  [ {| name := lit "generate_diagram_from_code";
       t_description := lit "Generate Mermaid diagrams from code analysis (flowcharts, sequence diagrams, class diagrams)";
       inputSchema :=
         {| properties :=
              [ (lit "code",
                 string_prop (lit "Source code to analyze and generate diagram from"));
                (lit "diagram_type",
                 enum_prop [lit "flowchart"; lit "sequence"; lit "class";
                            lit "state"; lit "auto"]
                   (lit "Type of diagram to generate (auto for intelligent detection)")
                   None);
                (lit "language",
                 string_prop (lit "Programming language of the source code"));
                (lit "include_details",
                 boolean_prop (lit "Include detailed annotations and comments") false) ];
            required := [lit "code"] |} |};
    {| name := lit "analyze_diagram_structure";
       t_description := lit "Analyze existing Mermaid diagram structure and provide insights";
       inputSchema :=
         {| properties :=
              [ (lit "diagram_code", string_prop (lit "Mermaid diagram code to analyze"));
                (lit "analysis_type",
                 enum_prop [lit "structure"; lit "complexity"; lit "optimization";
                            lit "full"]
                   (lit "Type of analysis to perform")
                   (Some (JStr (lit "full")))) ];
            required := [lit "diagram_code"] |} |};
    {| name := lit "suggest_diagram_improvements";
       t_description := lit "AI-powered suggestions for improving diagram clarity and effectiveness";
       inputSchema :=
         {| properties :=
              [ (lit "diagram_code", string_prop (lit "Mermaid diagram code to improve"));
                (lit "context",
                 string_prop (lit "Context or purpose of the diagram for targeted suggestions"));
                (lit "audience",
                 enum_prop [lit "technical"; lit "business"; lit "general";
                            lit "documentation"]
                   (lit "Target audience for optimization")
                   (Some (JStr (lit "general")))) ];
            required := [lit "diagram_code"] |} |};
    {| name := lit "create_workflow_diagram";
       t_description := lit "Create workflow diagrams from process descriptions or Git history";
       inputSchema :=
         {| properties :=
              [ (lit "workflow_description",
                 string_prop (lit "Description of the workflow or process"));
                (lit "workflow_type",
                 enum_prop [lit "git"; lit "cicd"; lit "business"; lit "development";
                            lit "deployment"]
                   (lit "Type of workflow to create") None);
                (lit "include_decision_points",
                 boolean_prop (lit "Include decision points and branching logic") true);
                (lit "format",
                 enum_prop [lit "flowchart"; lit "sequence"; lit "state"; lit "gantt"]
                   (lit "Diagram format for the workflow")
                   (Some (JStr (lit "flowchart")))) ];
            required := [lit "workflow_description"; lit "workflow_type"] |} |};
    {| name := lit "export_diagram_formats";
       t_description := lit "Export Mermaid diagrams to various formats (SVG, PNG, PDF)";
       inputSchema :=
         {| properties :=
              [ (lit "diagram_code", string_prop (lit "Mermaid diagram code to export"));
                (lit "format",
                 enum_prop [lit "svg"; lit "png"; lit "pdf"; lit "html"]
                   (lit "Export format") None);
                (lit "output_path", string_prop (lit "Optional output file path"));
                (lit "theme",
                 enum_prop [lit "default"; lit "dark"; lit "forest"; lit "neutral"]
                   (lit "Diagram theme") (Some (JStr (lit "default"))));
                (lit "width", number_prop (lit "Width for raster formats (PNG)") 1920);
                (lit "height", number_prop (lit "Height for raster formats (PNG)") 1080) ];
            required := [lit "diagram_code"; lit "format"] |} |};
    {| name := lit "validate_diagram_syntax";
       t_description := lit "Validate Mermaid diagram syntax and provide error details";
       inputSchema :=
         {| properties :=
              [ (lit "diagram_code", string_prop (lit "Mermaid diagram code to validate"));
                (lit "strict_mode",
                 boolean_prop (lit "Enable strict validation mode") false);
                (lit "provide_suggestions",
                 boolean_prop (lit "Provide syntax correction suggestions") true) ];
            required := [lit "diagram_code"] |} |} ].

(** A [CallToolRequestSchema] request: [request.params]. *)
Record Request := {
  r_name : jsstring;
  arguments : option Obj
}.

(** The pattern with which the handler of a tool destructures [args]. *)
Definition handler_pattern (tool : jsstring) : option Pattern :=
  if jsstring_eqb tool (lit "generate_diagram_from_code")
  then Some pattern_generateDiagramFromCode
  else if jsstring_eqb tool (lit "analyze_diagram_structure")
  then Some pattern_analyzeDiagramStructure
  else if jsstring_eqb tool (lit "suggest_diagram_improvements")
  then Some pattern_suggestDiagramImprovements
  else if jsstring_eqb tool (lit "create_workflow_diagram")
  then Some pattern_createWorkflowDiagram
  else if jsstring_eqb tool (lit "export_diagram_formats")
  then Some pattern_exportDiagramFormats
  else if jsstring_eqb tool (lit "validate_diagram_syntax")
  then Some pattern_validateDiagramSyntax
  else None.

Section Server.
Context {W : Type} `{Node W}.

(** The [switch (name)] inside the [try] of the call handler. *)
Definition dispatch (tool : jsstring) (args : option Obj) : M W ToolResponse :=
  if jsstring_eqb tool (lit "generate_diagram_from_code")
  then generateDiagramFromCode args
  else if jsstring_eqb tool (lit "analyze_diagram_structure")
  then analyzeDiagramStructure args
  else if jsstring_eqb tool (lit "suggest_diagram_improvements")
  then suggestDiagramImprovements args
  else if jsstring_eqb tool (lit "create_workflow_diagram")
  then createWorkflowDiagram args
  else if jsstring_eqb tool (lit "export_diagram_formats")
  then exportDiagramFormats args
  else if jsstring_eqb tool (lit "validate_diagram_syntax")
  then validateDiagramSyntax args
  else throw (JsError (lit "Unknown tool: " ++ tool)).

Definition error_response (tool errorMessage : jsstring) : ToolResponse :=
  {| content := [ text_block (lit "Error executing " ++ tool ++ lit ": "
                              ++ errorMessage) ] |}.

(** The handler of [CallToolRequestSchema]: it returns a response in
    every case. *)
Definition callTool (request : Request) (st : State W) : ToolResponse * State W :=
  let tool := r_name request in
  let args := arguments request in
  match dispatch tool args st with
  | (inr result, st1) => (result, st1)
  | (inl error, st1) =>
    let errorMessage := message_or (lit "Unknown error occurred") error in
    match logger_error (lit "MermaidServer")
                       (lit "Tool execution failed for " ++ tool ++ lit ":")
                       error st1 with
    | (_, st2) => (error_response tool errorMessage, st2)
    end
  end.

End Server.

(* ------------------------------------------------------------------ *)
(** ** An in-memory runtime

    A small instance of [Node], on which the handlers can be run: files are
    stored by path, a directory cannot be opened for writing, and a file
    cannot be turned into a directory. The working directory is the root
    and paths are taken in normal form. *)

Record MemFs := {
  mem_files : gmap (list N) (list N);
  mem_dirs : gset (list N)
}.

Definition ascii_upper (c : N) : N :=
  if (97 <=? c) && (c <=? 122) then c - 32 else c.

(** [path.posix.dirname]: drop the trailing slashes and the last
    component. *)
Fixpoint drop_slashes (r : list N) : list N :=
  match r with
  | 47 :: r1 => drop_slashes r1
  | _ => r
  end.

Fixpoint drop_component (r : list N) : option (list N) :=
  match r with
  | [] => None
  | 47 :: r1 => Some r1
  | _ :: r1 => drop_component r1
  end.

Definition mem_dirname (p : jsstring) : jsstring :=
  match p with
  | [] => lit "."
  | c :: rest =>
    match drop_component (drop_slashes (rev rest)) with
    | None => if c =? 47 then lit "/" else lit "."
    | Some before =>
      match before with
      | [] => if c =? 47 then lit "//" else [c]
      | _ => c :: rev before
      end
    end
  end.

Definition mem_resolve (p : jsstring) : jsstring :=
  match p with
  | 47 :: _ => p
  | _ => 47 :: p
  end.

Definition mem_mkdirSync (dir : jsstring) (w : MemFs) : Thrown + MemFs :=
  match mem_files w !! dir with
  | Some _ =>
    inl (JsError (lit "EEXIST: file already exists, mkdir '" ++ dir ++ lit "'"))
  | None => inr {| mem_files := mem_files w; mem_dirs := {[ dir ]} ∪ mem_dirs w |}
  end.

Definition mem_writeFileSync (p data : jsstring) (w : MemFs) : Thrown + MemFs :=
  if decide (p ∈ mem_dirs w) then
    inl (JsError (lit "EISDIR: illegal operation on a directory, open '" ++ p
                  ++ lit "'"))
  else inr {| mem_files := <[ p := utf8_encode data ]> (mem_files w);
              mem_dirs := mem_dirs w |}.

#[export] Program Instance MemNode : Node MemFs := {|
  toUpperCase := map ascii_upper;
  dirname := mem_dirname;
  resolve := mem_resolve;
  mkdirSync := mem_mkdirSync;
  writeFileSync := mem_writeFileSync;
  readFile := fun w p => mem_files w !! p
|}.
Next Obligation.
  intros p d w w'. unfold mem_writeFileSync.
  destruct (decide (p ∈ mem_dirs w)); intros Hw; [discriminate|].
  injection Hw as <-. simpl. apply lookup_insert_eq.
Qed.

(** The root directory alone, an empty error stream. *)
Definition st0 : State MemFs :=
  {| fs := {| mem_files := ∅; mem_dirs := {[ lit "/" ]} |}; stderr := [] |}.

(** [{ k1: v1, ... }] *)
Definition obj (kvs : list (jsstring * JsVal)) : Obj := list_to_map kvs.

(* ------------------------------------------------------------------ *)
(** ** Notions used in the statements *)

(** [returns m P]: every result that [m] returns satisfies [P]. *)
Definition returns {W A} (m : M W A) (P : A -> Prop) : Prop :=
  forall st a st1, m st = (inr a, st1) -> P a.

(** The state after one more line on the error stream. *)
Definition logged {W} (lv : Level) (ctx msg : jsstring) (err : option Thrown)
           (st : State W) : State W :=
  {| fs := fs st;
     stderr := stderr st ++ [ {| log_level := lv; log_context := ctx;
                                 log_message := msg; log_error := err |} ] |}.


(** The options that [exportDiagramFormats] passes to the renderer. *)
Definition export_options (a : Obj) : ExportOptions :=
  {| o_diagramCode := prop a (lit "diagram_code");
     o_format := prop a (lit "format");
     o_theme := default_to (JStr (lit "default")) (prop a (lit "theme"));
     o_width := default_to (JNum 1920) (prop a (lit "width"));
     o_height := default_to (JNum 1080) (prop a (lit "height"));
     o_outputPath := prop a (lit "output_path") |}.

(** A response that consists of one text block. *)
Definition one_text_block (r : ToolResponse) : Prop :=
  exists t, content r = [text_block t].

(** The file system after [ensureDirectoryExists(p)]. *)
Definition ensured {W} `{Node W} (p : jsstring) (w : W) : W :=
  match mkdirSync (dirname p) w with
  | inr w1 => w1
  | inl _ => w
  end.

(** The branch of [exportDiagram] that a format selects. *)
Definition render {W} `{Node W} (o : ExportOptions) : M W ExportResult :=
  let theme := default_to (JStr (lit "default")) (o_theme o) in
  let width := default_to (JNum 1920) (o_width o) in
  let height := default_to (JNum 1080) (o_height o) in
  if is_str (o_format o) (lit "svg")
  then renderSVG (o_diagramCode o) theme (o_outputPath o)
  else if is_str (o_format o) (lit "png")
  then renderPNG (o_diagramCode o) theme width height (o_outputPath o)
  else if is_str (o_format o) (lit "pdf")
  then renderPDF (o_diagramCode o) theme (o_outputPath o)
  else if is_str (o_format o) (lit "html")
  then renderHTML (o_diagramCode o) theme (o_outputPath o)
  else throw (JsError (lit "Unsupported format: " ++ ToString (o_format o))).

(** The line that [exportDiagram] logs first. *)
Definition rendering_line (o : ExportOptions) : jsstring :=
  lit "Rendering diagram to " ++ ToString (o_format o) ++ lit " with theme "
  ++ ToString (default_to (JStr (lit "default")) (o_theme o)).

(** The formats of the switch in [exportDiagram]. *)
Inductive Format := SVG | PNG | PDF | HTML.

Definition format_name (f : Format) : jsstring :=
  match f with
  | SVG => lit "svg"
  | PNG => lit "png"
  | PDF => lit "pdf"
  | HTML => lit "html"
  end.

(** The text that an export of a diagram source writes to its output
    path. *)
Definition file_contents (f : Format) (code : jsstring) (theme : JsVal) : jsstring :=
  match f with
  | SVG => match generateSVGTemplate (JStr code) theme with
           | inr svg => svg
           | inl _ => []
           end
  | PNG => lit "PNG export placeholder for diagram: " ++ slice0 50 code ++ lit "..."
  | PDF => lit "PDF export placeholder for diagram: " ++ slice0 50 code ++ lit "..."
  | HTML => generateHTMLTemplate (JStr code) theme
  end.

(** The [base64Data] that an export without output path returns. *)
Definition inline_base64 (f : Format) (code : jsstring) (theme : JsVal) : jsstring :=
  match f with
  | SVG | HTML => base64_encode (utf8_encode (file_contents f code theme))
  | PNG => png_base64
  | PDF => pdf_base64
  end.

(** The [size] that an export reports. *)
Definition reported_size (f : Format) (code : jsstring) (theme : JsVal) : jsstring :=
  match f with
  | SVG | HTML => size_kb (file_contents f code theme)
  | PNG => lit "~150KB"
  | PDF => lit "~200KB"
  end.

(** The theme after the default of [exportDiagram]. *)
Definition theme_of (o : ExportOptions) : JsVal :=
  default_to (JStr (lit "default")) (o_theme o).

(** What every returned result satisfies, by the output path asked for. *)
Definition mode_of {W} `{Node W} (path : JsVal) (r : ExportResult) : Prop :=
  success r = true
  /\ (truthy path = false -> outputPath r = None /\ exists b, base64Data r = Some b)
  /\ (truthy path = true ->
      exists p, path = JStr p /\ outputPath r = Some (resolve p)
                /\ base64Data r = None).

(** [{ ...options, outputPath: path }] *)
Definition with_outputPath (o : ExportOptions) (path : JsVal) : ExportOptions :=
  {| o_diagramCode := o_diagramCode o; o_format := o_format o;
     o_theme := o_theme o; o_width := o_width o; o_height := o_height o;
     o_outputPath := path |}.

(** Concrete requests, run on the in-memory runtime. *)
Definition example_code : JsVal := JStr (lit "flowchart TD\nA-->B").

Definition export_example (format theme path : JsVal) : ExportOptions :=
  {| o_diagramCode := example_code; o_format := format; o_theme := theme;
     o_width := JUndefined; o_height := JUndefined; o_outputPath := path |}.

Definition export_of_empty_source (format path : JsVal) : ExportOptions :=
  {| o_diagramCode := JStr []; o_format := format; o_theme := JUndefined;
     o_width := JUndefined; o_height := JUndefined; o_outputPath := path |}.

Definition export_request (format path : JsVal) : Request :=
  {| r_name := lit "export_diagram_formats";
     arguments := Some (obj [ (lit "diagram_code", example_code);
                              (lit "format", format);
                              (lit "output_path", path) ]) |}.

Definition eisdir_root : Thrown :=
  JsError (lit "EISDIR: illegal operation on a directory, open '/'").

(** Octets. *)
Definition bytes (bs : list N) : Prop := Forall (fun b => b < 256) bs.

(** UTF-16 code units, and text in the seven-bit range. *)
Definition code_units (s : jsstring) : Prop := Forall (fun c => c < 65536) s.

Definition ascii_text (s : jsstring) : Prop := Forall (fun c => c < 128) s.

(** The number of places at which [needle] occurs in [hay]. *)
Fixpoint occurrences (needle hay : jsstring) : nat :=
  match hay with
  | [] => 0
  | _ :: h => (if starts_with needle hay then 1 else 0) + occurrences needle h
  end.

(** The fixed demonstration drawing: a 400 by 300 canvas, the styles of
    the palette, the comment that holds [head], two node rectangles, one
    edge line and its arrow marker. *)
Definition demo_template (tc : ThemeColors) (head svg : jsstring) : Prop :=
  exists pre post,
    svg = pre ++ lit "<!-- Generated from Mermaid code: " ++ head
              ++ lit "... -->" ++ post
    /\ starts_with
         (lit "<?xml version=\q1.0\q encoding=\qUTF-8\q?>\n<svg width=\q400\q height=\q300\q xmlns=\qhttp://www.w3.org/2000/svg\q>\n")
         pre = true
    /\ includes (lit ".node { fill: " ++ ToString (color nodeColor tc)
                 ++ lit "; stroke: " ++ ToString (color strokeColor tc)
                 ++ lit "; stroke-width: 2; }") pre = true
    /\ includes (lit ".edge { stroke: " ++ ToString (color edgeColor tc)
                 ++ lit "; stroke-width: 2; }") pre = true
    /\ includes (lit ".label { fill: " ++ ToString (color textColor tc) ++ lit ";")
                pre = true
    /\ occurrences (lit "<rect class=\qnode\q") pre = 0%nat
    /\ occurrences (lit "<rect class=\qnode\q") post = 2%nat
    /\ occurrences (lit "<line class=\qedge\q") pre = 0%nat
    /\ occurrences (lit "<line class=\qedge\q") post = 1%nat
    /\ includes (lit "<polygon points=\q0 0, 10 3, 0 6\q fill=\q"
                 ++ ToString (color edgeColor tc) ++ lit "\q/>") post = true
    /\ forallb (fun c => c <? 128) pre = true
    /\ forallb (fun c => c <? 128) post = true
    /\ starts_with (lit "\n  <rect class=\qnode\q") post = true.

(** The descriptor that the listing gives for a tool. *)
Definition descriptor (tool : jsstring) : option ToolDescriptor :=
  find (fun t => jsstring_eqb (name t) tool) listTools.

(** The default that the schema of a tool declares for a property. *)
Definition schema_default (tool field : jsstring) : option JsVal :=
  match descriptor tool with
  | Some t =>
    match own_property field (properties (inputSchema t)) with
    | Some p => p_default p
    | None => None
    end
  | None => None
  end.

(** The default that the handler of a tool substitutes for a property. *)
Definition handler_default (tool field : jsstring) : option JsVal :=
  match handler_pattern tool with
  | Some pat =>
    match own_property field pat with
    | Some d => d
    | None => None
    end
  | None => None
  end.

(** Every property of every schema, with its tool. *)
Definition schema_fields : list (jsstring * jsstring) :=
  flat_map (fun t => map (fun p => (name t, fst p)) (properties (inputSchema t)))
           listTools.

(** The properties that a handler destructures are those of its schema. *)
Definition same_properties (t : ToolDescriptor) : Prop :=
  match handler_pattern (name t) with
  | Some pat => map fst pat = map fst (properties (inputSchema t))
  | None => False
  end.

(** [keeps_fs m]: [m] leaves the file system as it found it. *)
Definition keeps_fs {W A} (m : M W A) : Prop :=
  forall st, fs (snd (m st)) = fs st.

(** [appends m]: [m] only adds lines to the error stream. *)
Definition appends {W A} (m : M W A) : Prop :=
  forall st, exists new, stderr (snd (m st)) = stderr st ++ new.

(** [quiet m]: when [m] returns, it has added nothing but [INFO] lines. *)
Definition quiet {W A} (m : M W A) : Prop :=
  forall st a st1, m st = (inr a, st1) ->
    exists new, stderr st1 = stderr st ++ new
                /\ Forall (fun l => log_level l = INFO) new.

(** The line that the call handler logs for a failed tool. *)
Definition failure_line (tool : jsstring) (e : Thrown) : LogLine :=
  {| log_level := ERROR; log_context := lit "MermaidServer";
     log_message := lit "Tool execution failed for " ++ tool ++ lit ":";
     log_error := Some e |}.



(** A workflow request without [format], decision points switched off. *)
Definition workflow_example : Obj :=
  obj [ (lit "workflow_description", JStr (lit "build, test, deploy"));
        (lit "workflow_type", JStr (lit "cicd"));
        (lit "include_decision_points", JBool false) ].


(* ================================================================== *)
(** * Properties *)

Arguments lit : simpl never.

(** ** Strings *)

Lemma jsstring_eqb_eq (a b : jsstring) : jsstring_eqb a b = true <-> a = b.
Proof.
  revert b. induction a as [|x a IH]; intros [|y b]; cbn [jsstring_eqb];
    try (split; (discriminate || reflexivity)).
  rewrite andb_true_iff, N.eqb_eq, IH. split.
  - intros [-> ->]. reflexivity.
  - intros [= -> ->]. split; reflexivity.
Qed.

Lemma starts_with_app (n b : jsstring) : starts_with n (n ++ b) = true.
Proof.
  induction n as [|x n IH]; [reflexivity|].
  cbn [starts_with app]. rewrite N.eqb_refl. exact IH.
Qed.

Lemma includes_app_r (n a b : jsstring) :
  includes n b = true -> includes n (a ++ b) = true.
Proof.
  intros Hb. induction a as [|x a IH]; [exact Hb|].
  cbn [app includes]. rewrite IH. apply orb_true_r.
Qed.

Lemma starts_with_app_l (n a b : jsstring) :
  starts_with n a = true -> starts_with n (a ++ b) = true.
Proof.
  revert a. induction n as [|x n IH]; intros a; [reflexivity|].
  destruct a as [|y a]; [discriminate|].
  cbn [starts_with app]. rewrite !andb_true_iff. intros [-> Hn].
  split; [reflexivity | apply IH, Hn].
Qed.

Lemma includes_app_l (n a b : jsstring) :
  includes n a = true -> includes n (a ++ b) = true.
Proof.
  induction a as [|x a IH].
  - destruct n; [destruct b; reflexivity | discriminate].
  - cbn [app includes]. rewrite !orb_true_iff. intros [Hs | Hi].
    + left. apply (starts_with_app_l n (x :: a) b Hs).
    + right. apply IH, Hi.
Qed.

(** [includes] finds a needle wherever it lies. *)
Lemma includes_intro (n a b : jsstring) : includes n (a ++ n ++ b) = true.
Proof.
  apply includes_app_r. destruct n as [|x n].
  - destruct b; reflexivity.
  - cbn [app includes]. change (x :: n ++ b) with ((x :: n) ++ b).
    rewrite starts_with_app. reflexivity.
Qed.



(** ** Computations *)

Section Computations.
Context {W : Type}.

Lemma returns_ret {A} (a : A) (P : A -> Prop) : P a -> returns (W:=W) (ret a) P.
Proof. intros Ha st b st1 [= <- _]. exact Ha. Qed.

Lemma returns_throw {A} (e : Thrown) (P : A -> Prop) :
  returns (W:=W) (throw e) P.
Proof. intros st b st1 [=]. Qed.

Lemma returns_bind {A B} (m : M W A) (k : A -> M W B) (P : B -> Prop) :
  (forall a, returns (k a) P) -> returns (bind m k) P.
Proof.
  intros Hk st b st1. unfold bind.
  destruct (m st) as [[e|a] st2]; [discriminate|]. apply Hk.
Qed.

Lemma returns_try_catch {A} (m : M W A) (h : Thrown -> M W A) (P : A -> Prop) :
  returns m P -> (forall e, returns (h e) P) -> returns (try_catch m h) P.
Proof.
  intros Hm Hh st b st1. unfold try_catch.
  destruct (m st) as [[e|a] st2] eqn:E.
  - apply Hh.
  - intros [= <- <-]. exact (Hm _ _ _ E).
Qed.

End Computations.

Lemma includes_suffix (n a : jsstring) : includes n (a ++ n) = true.
Proof. rewrite <- (app_nil_r n) at 2. apply includes_intro. Qed.

(** ** The dispatcher *)

Section Dispatcher.
Context {W : Type} `{Node W}.

Ltac returns_step :=
  lazymatch goal with
  | |- returns (bind _ _) _ => apply returns_bind; intros ?
  | |- returns (try_catch _ _) _ => apply returns_try_catch; [| intros ?]
  | |- returns (rethrow _ _) _ => apply returns_throw
  | |- returns (throw _) _ => apply returns_throw
  | |- returns (ret _) _ => apply returns_ret; eexists; reflexivity
  | |- returns (let x := _ in _) _ => cbv zeta
  | |- returns ((fun _ => _) _) _ => cbv beta
  end.

Lemma handlers_return_one_text_block (tool : jsstring) (args : option Obj) :
  returns (dispatch tool args) one_text_block.
Proof.
  unfold dispatch.
  repeat match goal with
         | |- returns (if ?c then _ else _) _ => destruct c
         end;
    [ unfold generateDiagramFromCode | unfold analyzeDiagramStructure
    | unfold suggestDiagramImprovements | unfold createWorkflowDiagram
    | unfold exportDiagramFormats | unfold validateDiagramSyntax | ];
    repeat returns_step.
Qed.

Lemma unknown_tool_dispatch (tool : jsstring) (args : option Obj) :
  ~ In tool (map name listTools) ->
  dispatch tool args = throw (JsError (lit "Unknown tool: " ++ tool)).
Proof.
  intros Hn. unfold dispatch.
  repeat match goal with
         | |- (if jsstring_eqb tool ?l then _ else _) = _ =>
           destruct (jsstring_eqb tool l) eqn:E;
             [ exfalso; apply Hn; apply jsstring_eqb_eq in E; rewrite E;
               vm_compute; tauto
             | clear E ]
         end.
  reflexivity.
Qed.

Lemma callTool_error (request : Request) (st st1 : State W) (e : Thrown) :
  dispatch (r_name request) (arguments request) st = (inl e, st1) ->
  callTool request st =
  (error_response (r_name request) (message_or (lit "Unknown error occurred") e),
   logged ERROR (lit "MermaidServer")
          (lit "Tool execution failed for " ++ r_name request ++ lit ":")
          (Some e) st1).
Proof. intros Hd. unfold callTool. rewrite Hd. reflexivity. Qed.

Lemma exportDiagramFormats_failure (a : Obj) (st st1 : State W) (e : Thrown) :
  exportDiagram (export_options a)
    (logged INFO (lit "MermaidTools")
       (lit "Exporting diagram to " ++ ToString (prop a (lit "format"))
        ++ lit " format with "
        ++ ToString (default_to (JStr (lit "default")) (prop a (lit "theme")))
        ++ lit " theme") None st) = (inl e, st1) ->
  exportDiagramFormats (Some a) st =
  (inl (JsError (lit "Failed to export diagram: "
                 ++ message_or (lit "Unknown error") e)), st1).
Proof.
  intros He. unfold exportDiagramFormats, destructure, lift, bind, logger_info,
    log, try_catch.
  unfold logged, export_options in He.
  change (var (map (bind_property a) pattern_exportDiagramFormats) (lit "format"))
    with (prop a (lit "format")).
  change (var (map (bind_property a) pattern_exportDiagramFormats) (lit "theme"))
    with (default_to (JStr (lit "default")) (prop a (lit "theme"))).
  change (var (map (bind_property a) pattern_exportDiagramFormats) (lit "diagram_code"))
    with (prop a (lit "diagram_code")).
  change (var (map (bind_property a) pattern_exportDiagramFormats) (lit "width"))
    with (default_to (JNum 1920) (prop a (lit "width"))).
  change (var (map (bind_property a) pattern_exportDiagramFormats) (lit "height"))
    with (default_to (JNum 1080) (prop a (lit "height"))).
  change (var (map (bind_property a) pattern_exportDiagramFormats) (lit "output_path"))
    with (prop a (lit "output_path")).
  rewrite He. reflexivity.
Qed.

(** C1. Whatever the request, the call handler returns a response of one
    text block. When the matched handler throws, and likewise when the
    tool name is not registered, the response is the text
    [Error executing <name>: <message>], which contains the tool name and
    the failure message; a failure of the export pipeline arrives there
    behind the prefix of [exportDiagramFormats]. *)
Theorem callTool_degrades_every_failure (request : Request) (st : State W) :
  let tool := r_name request in
  one_text_block (fst (callTool request st))
  /\ (forall e st1,
        dispatch tool (arguments request) st = (inl e, st1) ->
        let errorMessage := message_or (lit "Unknown error occurred") e in
        let report := lit "Error executing " ++ tool ++ lit ": " ++ errorMessage in
        fst (callTool request st) = {| content := [text_block report] |}
        /\ includes tool report = true
        /\ includes errorMessage report = true)
  /\ (~ In tool (map name listTools) ->
      let report := lit "Error executing " ++ tool ++ lit ": "
                    ++ lit "Unknown tool: " ++ tool in
      fst (callTool request st) = {| content := [text_block report] |}
      /\ includes tool report = true
      /\ includes (lit "Unknown tool") report = true)
  /\ (forall a e st1,
        tool = lit "export_diagram_formats" ->
        arguments request = Some a ->
        exportDiagram (export_options a)
          (logged INFO (lit "MermaidTools")
             (lit "Exporting diagram to " ++ ToString (prop a (lit "format"))
              ++ lit " format with "
              ++ ToString (default_to (JStr (lit "default")) (prop a (lit "theme")))
              ++ lit " theme") None st) = (inl e, st1) ->
        let report := lit "Error executing export_diagram_formats: "
                      ++ lit "Failed to export diagram: "
                      ++ message_or (lit "Unknown error") e in
        fst (callTool request st) = {| content := [text_block report] |}
        /\ includes (message_or (lit "Unknown error") e) report = true).
Proof.
  intros tool. split; [|split; [|split]].
  - unfold callTool. fold tool.
    destruct (dispatch tool (arguments request) st) as [[e|r] st1] eqn:E.
    + eexists. reflexivity.
    + exact (handlers_return_one_text_block _ _ _ _ _ E).
  - intros e st1 Hd errorMessage report.
    rewrite (callTool_error _ _ _ _ Hd). split; [reflexivity|]. split.
    + apply includes_intro.
    + unfold report. rewrite !app_assoc. apply includes_suffix.
  - intros Hn report.
    assert (Hd : dispatch tool (arguments request) st
                 = (inl (JsError (lit "Unknown tool: " ++ tool)), st)).
    { rewrite (unknown_tool_dispatch _ _ Hn). reflexivity. }
    rewrite (callTool_error _ _ _ _ Hd). split; [reflexivity|]. split.
    + apply includes_intro.
    + unfold report.
      change (lit "Unknown tool: ") with (lit "Unknown tool" ++ lit ": ").
      do 3 apply includes_app_r. apply includes_app_l.
      apply (includes_intro (lit "Unknown tool") [] (lit ": ")).
  - intros a e st1 Ht Ha He report.
    assert (Hd : dispatch tool (arguments request) st
                 = (inl (JsError (lit "Failed to export diagram: "
                                  ++ message_or (lit "Unknown error") e)), st1)).
    { rewrite Ht, Ha. apply (exportDiagramFormats_failure _ _ _ _ He). }
    rewrite (callTool_error _ _ _ _ Hd). split.
    + cbn [fst message_or]. unfold error_response. fold tool. rewrite Ht.
      reflexivity.
    + unfold report. rewrite !app_assoc. apply includes_suffix.
Qed.


End Dispatcher.

(** ** The export pipeline *)

Section ExportPipeline.
Context {W : Type} `{Node W}.

Lemma exportDiagram_render (o : ExportOptions) (st : State W) :
  exportDiagram o st =
  match render o (logged INFO (lit "MermaidRenderer") (rendering_line o) None st) with
  | (inr r, st1) => (inr r, st1)
  | (inl e, st1) =>
    (inl e, logged ERROR (lit "MermaidRenderer") (lit "Export failed:") (Some e) st1)
  end.
Proof.
  unfold exportDiagram, render, bind, logger_info, log, try_catch, logged, rendering_line.
  cbv zeta.
  match goal with |- context [match ?x with _ => _ end] => destruct x as [[e|r] st1] end;
    reflexivity.
Qed.

Ltac eval_is_str :=
  repeat match goal with
         | |- context [is_str (JStr (lit ?a)) (lit ?b)] =>
           let v := eval vm_compute in (is_str (JStr (lit a)) (lit b)) in
           change (is_str (JStr (lit a)) (lit b)) with v
         end.

Lemma svg_template_string (s : jsstring) (theme : JsVal) :
  generateSVGTemplate (JStr s) theme = inr (file_contents SVG s theme).
Proof.
  cbv beta iota delta [generateSVGTemplate call_slice0 file_contents].
  reflexivity.
Qed.

Lemma render_inline (f : Format) (s : jsstring) (o : ExportOptions) (st : State W) :
  o_format o = JStr (format_name f) ->
  o_diagramCode o = JStr s ->
  truthy (o_outputPath o) = false ->
  exists r,
    render o st = (inr r, st)
    /\ success r = true
    /\ outputPath r = None
    /\ base64Data r = Some (inline_base64 f s (theme_of o))
    /\ size r = reported_size f s (theme_of o).
Proof.
  intros Hf Hc Hp. unfold render. rewrite Hf, Hc. cbv zeta. fold (theme_of o).
  destruct f; cbn [format_name].
  all: eval_is_str.
  all: cbv iota.
  all: unfold renderSVG, renderPNG, renderPDF, renderHTML.
  all: rewrite ?Hp, ?svg_template_string.
  all: cbv zeta; unfold bind, lift, ret.
  all: eexists; (split; [reflexivity|]).
  all: cbn [success outputPath base64Data size].
  all: unfold inline_base64, reported_size, file_contents.
  all: repeat split; reflexivity.
Qed.

Lemma render_file (f : Format) (s : jsstring) (o : ExportOptions) (st : State W)
      (c : N) (p : jsstring) :
  o_format o = JStr (format_name f) ->
  o_diagramCode o = JStr s ->
  o_outputPath o = JStr (c :: p) ->
  match writeFileSync (c :: p) (file_contents f s (theme_of o))
                      (ensured (c :: p) (fs st)) with
  | inr w1 =>
    exists r,
      render o st = (inr r, {| fs := w1; stderr := stderr st |})
      /\ success r = true
      /\ outputPath r = Some (resolve (c :: p))
      /\ base64Data r = None
      /\ size r = reported_size f s (theme_of o)
  | inl e =>
    render o st = (inl e, {| fs := ensured (c :: p) (fs st); stderr := stderr st |})
  end.
Proof.
  intros Hf Hc Hp. unfold render. rewrite Hf, Hc, Hp. cbv zeta. fold (theme_of o).
  destruct st as [w errs]. cbn [fs stderr]. unfold ensured.
  destruct f; cbn [format_name]; eval_is_str; cbv iota;
    unfold renderSVG, renderPNG, renderPDF, renderHTML;
    rewrite ?svg_template_string; cbv zeta; cbn [truthy call_slice0];
    unfold ensureDirectoryExists, write_file, resolved, bind, lift, try_catch,
      fs_op, ret, path_arg; cbn [fs stderr];
    unfold reported_size, file_contents;
    destruct (mkdirSync (dirname (c :: p)) w) as [e0|w0]; cbn [fs stderr];
    match goal with |- context [writeFileSync (c :: p) ?d ?w1] =>
      destruct (writeFileSync (c :: p) d w1) as [e|w2] end;
    first [ reflexivity | eexists; (split; [reflexivity|]); repeat split ].
Qed.

Lemma exportDiagram_inline (f : Format) (s : jsstring) (o : ExportOptions)
      (st : State W) :
  o_format o = JStr (format_name f) ->
  o_diagramCode o = JStr s ->
  truthy (o_outputPath o) = false ->
  exists r,
    exportDiagram o st
    = (inr r, logged INFO (lit "MermaidRenderer") (rendering_line o) None st)
    /\ success r = true
    /\ outputPath r = None
    /\ base64Data r = Some (inline_base64 f s (theme_of o))
    /\ size r = reported_size f s (theme_of o).
Proof.
  intros Hf Hc Hp. rewrite exportDiagram_render.
  destruct (render_inline f s o
              (logged INFO (lit "MermaidRenderer") (rendering_line o) None st)
              Hf Hc Hp) as (r & -> & Hr).
  exists r. split; [reflexivity | exact Hr].
Qed.

Lemma exportDiagram_file (f : Format) (s : jsstring) (o : ExportOptions)
      (st : State W) (c : N) (p : jsstring) :
  o_format o = JStr (format_name f) ->
  o_diagramCode o = JStr s ->
  o_outputPath o = JStr (c :: p) ->
  match writeFileSync (c :: p) (file_contents f s (theme_of o))
                      (ensured (c :: p) (fs st)) with
  | inr w1 =>
    exists r,
      exportDiagram o st
      = (inr r, {| fs := w1;
                   stderr := stderr (logged INFO (lit "MermaidRenderer")
                                            (rendering_line o) None st) |})
      /\ success r = true
      /\ outputPath r = Some (resolve (c :: p))
      /\ base64Data r = None
      /\ size r = reported_size f s (theme_of o)
  | inl e =>
    exportDiagram o st
    = (inl e,
       logged ERROR (lit "MermaidRenderer") (lit "Export failed:") (Some e)
         {| fs := ensured (c :: p) (fs st);
            stderr := stderr (logged INFO (lit "MermaidRenderer")
                                     (rendering_line o) None st) |})
  end.
Proof.
  intros Hf Hc Hp. rewrite exportDiagram_render.
  pose proof (render_file f s o
                (logged INFO (lit "MermaidRenderer") (rendering_line o) None st)
                c p Hf Hc Hp) as Hr.
  cbn [fs logged] in Hr.
  destruct (writeFileSync (c :: p) (file_contents f s (theme_of o))
                          (ensured (c :: p) (fs st))) as [e|w1].
  - rewrite Hr. reflexivity.
  - destruct Hr as (r & -> & Hr). exists r. split; [reflexivity | exact Hr].
Qed.

Lemma returns_store (path : JsVal) (data : jsstring)
      (k : jsstring -> ExportResult) (P : ExportResult -> Prop) :
  (forall p, path = JStr p -> P (k (resolve p))) ->
  returns (ensureDirectoryExists path ;; write_file path data ;;
           let! abs := resolved path in ret (k abs)) P.
Proof.
  intros HP st r st1.
  unfold ensureDirectoryExists, write_file, resolved, bind, lift, try_catch,
    fs_op, ret, path_arg.
  destruct path as [| | b | n | p]; try discriminate.
  destruct (mkdirSync (dirname p) (fs st)); cbn [fs stderr];
    match goal with |- context [writeFileSync p data ?w] =>
      destruct (writeFileSync p data w) end;
    try discriminate; intros [= <- _]; apply HP; reflexivity.
Qed.

Ltac mode_step :=
  lazymatch goal with
  | |- returns (bind (lift _) _) _ => apply returns_bind; intros ?
  | |- returns (if truthy ?p then _ else _) _ =>
    let E := fresh "E" in destruct (truthy p) eqn:E
  | |- returns (bind (ensureDirectoryExists _) _) _ =>
    apply returns_store; intros ? ?;
    (split; [reflexivity|]); split; [intros; congruence|]; intros _;
    eexists; split; [eassumption | split; reflexivity]
  | |- returns (ret _) _ =>
    apply returns_ret; (split; [reflexivity|]); split;
    [ intros _; split; [reflexivity | eexists; reflexivity]
    | intros; congruence ]
  | |- returns (throw _) _ => apply returns_throw
  | |- returns (let x := _ in _) _ => cbv zeta
  end.

Lemma render_mode (o : ExportOptions) :
  returns (render o) (mode_of (o_outputPath o)).
Proof.
  unfold render. cbv zeta.
  repeat match goal with
         | |- returns (if is_str ?a ?b then _ else _) _ => destruct (is_str a b)
         end;
    unfold renderSVG, renderPNG, renderPDF, renderHTML; repeat mode_step.
Qed.

Lemma render_inline_pure (o : ExportOptions) :
  truthy (o_outputPath o) = false ->
  exists x, forall st : State W, render o st = (x, st).
Proof.
  intros Hp. unfold render. cbv zeta.
  repeat match goal with
         | |- context [if is_str ?a ?b then _ else _] => destruct (is_str a b)
         end;
    unfold renderSVG, renderPNG, renderPDF, renderHTML; rewrite ?Hp; cbv zeta;
    unfold bind, lift, ret, throw;
    try (eexists; intros; reflexivity).
  destruct (generateSVGTemplate _ _); eexists; intros; reflexivity.
Qed.

(** C2, amended. Every result that [exportDiagram] returns has [success]
    true and exactly one of [outputPath] and [base64Data]: without an
    output path, and also with the empty string as output path, it has
    [base64Data] and no [outputPath]; with a non-empty output path it has
    [outputPath], the resolved path, and no [base64Data]. *)
Theorem export_result_mode (o : ExportOptions) (st st1 : State W) (r : ExportResult) :
  exportDiagram o st = (inr r, st1) ->
  success r = true
  /\ (truthy (o_outputPath o) = false ->
      outputPath r = None /\ exists b, base64Data r = Some b)
  /\ (forall p, o_outputPath o = JStr p -> p <> [] ->
      outputPath r = Some (resolve p) /\ base64Data r = None)
  /\ ((outputPath r = None /\ base64Data r <> None)
      \/ (outputPath r <> None /\ base64Data r = None)).
Proof.
  rewrite exportDiagram_render.
  destruct (render o _) as [[e|r0] st0] eqn:E; intros [= <- <-].
  destruct (render_mode o _ _ _ E) as (Hs & Hinline & Hfile).
  split; [exact Hs|]. split; [exact Hinline|]. split.
  - intros p Hp Hne. destruct Hfile as (q & Hq & Ho & Hb).
    + rewrite Hp. destruct p; [congruence | reflexivity].
    + rewrite Hp in Hq. injection Hq as <-. split; assumption.
  - destruct (truthy (o_outputPath o)).
    + right. destruct Hfile as (q & _ & -> & ->); [reflexivity|]. split; congruence.
    + left. destruct Hinline as (-> & b & ->); [reflexivity|]. split; congruence.
Qed.

Lemma exportDiagram_unsupported (o : ExportOptions) (st : State W) :
  (forall f, o_format o <> JStr (format_name f)) ->
  exists st1, exportDiagram o st
              = (inl (JsError (lit "Unsupported format: " ++ ToString (o_format o))),
                 st1).
Proof.
  intros Hf. rewrite exportDiagram_render. unfold render. cbv zeta.
  repeat match goal with
         | |- context [if is_str ?a ?b then _ else _] =>
           destruct (is_str a b) eqn:?
         end;
    try (eexists; reflexivity);
    exfalso;
    match goal with
    | E : is_str _ (lit ?l) = true |- _ =>
      unfold is_str in E; destruct (o_format o) as [| | | |t] eqn:Et;
        try discriminate; apply jsstring_eqb_eq in E; subst t
    end;
    [ apply (Hf SVG) | apply (Hf PNG) | apply (Hf PDF) | apply (Hf HTML) ];
    reflexivity.
Qed.

(** C5, amended. [exportDiagram] throws [Unsupported format] when the
    format is none of svg, png, pdf and html. For these four and a
    diagram source that is a string, it returns a result with [success]
    true when no output path is given, and when the write to a given
    output path returns; it throws the error of [writeFileSync] when
    that write fails. *)
Theorem export_fails_on_format_or_write (o : ExportOptions) (st : State W) :
  ((forall f, o_format o <> JStr (format_name f)) ->
   exists st1, exportDiagram o st
               = (inl (JsError (lit "Unsupported format: " ++ ToString (o_format o))),
                  st1))
  /\ (forall f s,
        o_format o = JStr (format_name f) ->
        o_diagramCode o = JStr s ->
        (truthy (o_outputPath o) = false ->
         exists r st1, exportDiagram o st = (inr r, st1) /\ success r = true)
        /\ (forall p w1,
              o_outputPath o = JStr p -> p <> [] ->
              writeFileSync p (file_contents f s (theme_of o)) (ensured p (fs st))
              = inr w1 ->
              exists r st1, exportDiagram o st = (inr r, st1) /\ success r = true
                            /\ fs st1 = w1)
        /\ (forall p e,
              o_outputPath o = JStr p -> p <> [] ->
              writeFileSync p (file_contents f s (theme_of o)) (ensured p (fs st))
              = inl e ->
              exists st1, exportDiagram o st = (inl e, st1))).
Proof.
  split; [apply exportDiagram_unsupported|].
  - intros f s Hf Hc. split; [|split].
    + intros Hp. destruct (exportDiagram_inline f s o st Hf Hc Hp) as (r & Hr & Hs & _).
      exists r. eexists. split; [exact Hr | exact Hs].
    + intros p w1 Hp Hne Hw. destruct p as [|c p]; [congruence|].
      pose proof (exportDiagram_file f s o st c p Hf Hc Hp) as Hr.
      rewrite Hw in Hr. destruct Hr as (r & Hr & Hs & _).
      exists r. eexists. split; [exact Hr|]. split; [exact Hs | reflexivity].
    + intros p e Hp Hne Hw. destruct p as [|c p]; [congruence|].
      pose proof (exportDiagram_file f s o st c p Hf Hc Hp) as Hr.
      rewrite Hw in Hr. eexists. exact Hr.
Qed.

(** C8, amended. For every diagram source, the empty one included, a png
    or pdf export without output path returns, untouched file system,
    its constant base64 payload and its fixed size string; with an
    output path it writes the text placeholder there and returns the
    resolved path, and it throws only when that write fails. *)
Theorem placeholder_exports (f : Format) (s : jsstring) (o : ExportOptions)
        (st : State W) :
  f = PNG \/ f = PDF ->
  o_format o = JStr (format_name f) ->
  o_diagramCode o = JStr s ->
  let placeholder :=
      (match f with
       | PDF => lit "PDF export placeholder for diagram: "
       | _ => lit "PNG export placeholder for diagram: "
       end) ++ slice0 50 s ++ lit "..." in
  (truthy (o_outputPath o) = false ->
   exists r st1,
     exportDiagram o st = (inr r, st1)
     /\ fs st1 = fs st
     /\ success r = true
     /\ outputPath r = None
     /\ base64Data r = Some (match f with PDF => pdf_base64 | _ => png_base64 end)
     /\ size r = match f with PDF => lit "~200KB" | _ => lit "~150KB" end)
  /\ (forall p, o_outputPath o = JStr p -> p <> [] ->
      match writeFileSync p placeholder (ensured p (fs st)) with
      | inr w1 =>
        exists r st1,
          exportDiagram o st = (inr r, st1)
          /\ fs st1 = w1
          /\ readFile w1 p = Some (utf8_encode placeholder)
          /\ success r = true
          /\ outputPath r = Some (resolve p)
          /\ base64Data r = None
          /\ size r = match f with PDF => lit "~200KB" | _ => lit "~150KB" end
      | inl e => exists st1, exportDiagram o st = (inl e, st1)
      end).
Proof.
  intros Hpp Hf Hc placeholder. split.
  - intros Hp.
    destruct (exportDiagram_inline f s o st Hf Hc Hp) as (r & Hr & Hs & Ho & Hb & Hz).
    exists r. eexists. split; [exact Hr|].
    unfold inline_base64, reported_size in *.
    destruct Hpp as [-> | ->]; repeat split; assumption.
  - intros p Hp Hne. destruct p as [|c p]; [congruence|].
    pose proof (exportDiagram_file f s o st c p Hf Hc Hp) as Hr.
    assert (Hd : file_contents f s (theme_of o) = placeholder)
      by (unfold placeholder, file_contents; destruct Hpp as [-> | ->]; reflexivity).
    rewrite Hd in Hr.
    destruct (writeFileSync (c :: p) placeholder (ensured (c :: p) (fs st)))
      as [e|w1] eqn:Hw.
    + eexists. exact Hr.
    + destruct Hr as (r & Hr & Hs & Ho & Hb & Hz).
      exists r. eexists. split; [exact Hr|].
      split; [reflexivity|].
      split; [exact (writeFileSync_readFile _ _ _ _ Hw)|].
      unfold reported_size in *.
      destruct Hpp as [-> | ->]; repeat split; assumption.
Qed.

(** C9. Without output path the outcome of [exportDiagram], and so its
    [base64Data], does not depend on the state in which it runs. With
    output paths, two exports of the same options that return leave
    the same bytes at their two paths, the UTF-8 encoding of the
    payload of the format. *)
Theorem export_payload_is_deterministic (o : ExportOptions) :
  (truthy (o_outputPath o) = false ->
   forall st1 st2 : State W,
     fst (exportDiagram o st1) = fst (exportDiagram o st2))
  /\ (forall f s p1 p2 (st1 st2 : State W) r1 r2 st1' st2',
        o_format o = JStr (format_name f) ->
        o_diagramCode o = JStr s ->
        p1 <> [] -> p2 <> [] ->
        exportDiagram (with_outputPath o (JStr p1)) st1 = (inr r1, st1') ->
        exportDiagram (with_outputPath o (JStr p2)) st2 = (inr r2, st2') ->
        readFile (fs st1') p1 = Some (utf8_encode (file_contents f s (theme_of o)))
        /\ readFile (fs st2') p2 = readFile (fs st1') p1).
Proof.
  split.
  - intros Hp st1 st2. rewrite !exportDiagram_render.
    destruct (render_inline_pure o Hp) as (x & Hx). rewrite !Hx.
    destruct x; reflexivity.
  - intros f s p1 p2 st1 st2 r1 r2 st1' st2' Hf Hc Hn1 Hn2 H1 H2.
    assert (Hfile : forall p (st st' : State W) r,
               p <> [] ->
               exportDiagram (with_outputPath o (JStr p)) st = (inr r, st') ->
               readFile (fs st') p
               = Some (utf8_encode (file_contents f s (theme_of o)))).
    { intros p st st' r Hn Hr. destruct p as [|c p]; [congruence|].
      pose proof (exportDiagram_file f s (with_outputPath o (JStr (c :: p))) st c p
                    Hf Hc eq_refl) as Hx.
      change (theme_of (with_outputPath o (JStr (c :: p)))) with (theme_of o) in Hx.
      destruct (writeFileSync (c :: p) (file_contents f s (theme_of o))
                              (ensured (c :: p) (fs st))) as [e|w1] eqn:Hw.
      - rewrite Hx in Hr. discriminate.
      - destruct Hx as (r' & Hx & _). rewrite Hx in Hr. injection Hr as <- <-.
        exact (writeFileSync_readFile _ _ _ _ Hw). }
    rewrite (Hfile p1 st1 st1' r1 Hn1 H1), (Hfile p2 st2 st2' r2 Hn2 H2).
    split; reflexivity.
Qed.

End ExportPipeline.

(** ** Buffers and the SVG template *)

(** [lia] is to reason about division and remainder by constants. *)
Ltac Zify.zify_post_hook ::= Z.to_euclidean_division_equations.

Lemma sextet_arith (a b c : N) :
  a < 256 -> b < 256 -> c < 256 ->
  (a / 4) * 4 + ((a mod 4) * 16 + b / 16) / 16 = a
  /\ (((a mod 4) * 16 + b / 16) mod 16) * 16 + ((b mod 16) * 4 + c / 64) / 4 = b
  /\ (((b mod 16) * 4 + c / 64) mod 4) * 64 + c mod 64 = c
  /\ a / 4 < 64 /\ (a mod 4) * 16 + b / 16 < 64
  /\ (b mod 16) * 4 + c / 64 < 64 /\ c mod 64 < 64.
Proof. intros. repeat split; lia. Qed.

Lemma b64val_b64char (i : N) : i < 64 -> b64val (b64char i) = Some i /\ b64char i <> 61.
Proof.
  intros Hi. destruct i as [|p]; [vm_compute; split; [reflexivity | discriminate]|].
  do 7 (try (destruct p as [p|p|]));
    try lia; vm_compute; (split; [reflexivity | discriminate]).
Qed.

Lemma list_ind3 {A} (P : list A -> Prop) :
  P [] -> (forall a, P [a]) -> (forall a b, P [a; b]) ->
  (forall a b c r, P r -> P (a :: b :: c :: r)) ->
  forall l, P l.
Proof.
  intros H0 H1 H2 H3. fix IH 1.
  intros [|a [|b [|c r]]]; [exact H0 | apply H1 | apply H2 | apply H3, IH].
Qed.

(** Decoding the base64 text of a buffer gives the buffer back. *)
Lemma base64_decode_encode (bs : list N) :
  bytes bs -> base64_decode (base64_encode bs) = Some bs.
Proof.
  induction bs as [|a|a b|a b c r IH] using list_ind3; intros Hb.
  - reflexivity.
  - apply Forall_cons in Hb as [Ha _].
    destruct (sextet_arith a 0 0 Ha) as (E1 & _ & _ & L1 & L2 & _); [lia..|].
    cbn [base64_encode base64_decode].
    replace ((a mod 4) * 16) with ((a mod 4) * 16 + 0 / 16) by (cbn; lia).
    rewrite (proj1 (b64val_b64char _ L1)), (proj1 (b64val_b64char _ L2)).
    cbn [N.eqb Pos.eqb andb]. rewrite E1. reflexivity.
  - apply Forall_cons in Hb as [Ha Hb]. apply Forall_cons in Hb as [Hb _].
    destruct (sextet_arith a b 0 Ha Hb) as (E1 & E2 & _ & L1 & L2 & L3 & _); [lia|].
    cbn [base64_encode base64_decode].
    replace ((b mod 16) * 4) with ((b mod 16) * 4 + 0 / 64) by (cbn; lia).
    rewrite (proj1 (b64val_b64char _ L1)), (proj1 (b64val_b64char _ L2)),
      (proj1 (b64val_b64char _ L3)).
    destruct (N.eqb_spec (b64char ((b mod 16) * 4 + 0 / 64)) 61) as [E|_];
      [destruct (proj2 (b64val_b64char _ L3) E)|].
    cbn [N.eqb Pos.eqb andb]. rewrite E1, E2. reflexivity.
  - apply Forall_cons in Hb as [Ha Hb]. apply Forall_cons in Hb as [Hb Hc].
    apply Forall_cons in Hc as [Hc Hr].
    destruct (sextet_arith a b c Ha Hb Hc) as (E1 & E2 & E3 & L1 & L2 & L3 & L4).
    cbn [base64_encode base64_decode].
    rewrite (proj1 (b64val_b64char _ L1)), (proj1 (b64val_b64char _ L2)),
      (proj1 (b64val_b64char _ L3)), (proj1 (b64val_b64char _ L4)).
    destruct (N.eqb_spec (b64char ((b mod 16) * 4 + c / 64)) 61) as [E|_];
      [destruct (proj2 (b64val_b64char _ L3) E)|].
    destruct (N.eqb_spec (b64char (c mod 64)) 61) as [E|_];
      [destruct (proj2 (b64val_b64char _ L4) E)|].
    cbn [andb]. rewrite (IH Hr), E1, E2, E3. reflexivity.
Qed.


Lemma utf8_encode_cons (c : N) (r : jsstring) :
  exists k front, utf8_encode (c :: r) = front ++ utf8_encode (drop k r)
                  /\ (c < 65536 -> (forall d, d ∈ r -> d < 65536) -> bytes front)
                  /\ (k <= 1)%nat
                  /\ (k = 1%nat -> exists d, head r = Some d /\ 128 <= d).
Proof.
  cbn [utf8_encode].
  destruct (N.ltb_spec c 128) as [L1|L1].
  { exists 0%nat, [c]. repeat split; [|lia|discriminate].
    intros _ _. repeat constructor. lia. }
  destruct (N.ltb_spec c 2048) as [L2|L2].
  { exists 0%nat, [192 + c / 64; 128 + c mod 64]. repeat split; [|lia|discriminate].
    intros _ _. repeat constructor; lia. }
  destruct (is_high_surrogate c) eqn:Hh.
  - destruct r as [|d r1].
    + exists 0%nat, replacement_bytes. repeat split; [|lia|discriminate].
      intros _ _. repeat constructor; lia.
    + destruct (is_low_surrogate d) eqn:Hl.
      * exists 1%nat, (utf8_4 (65536 + (c - 55296) * 1024 + (d - 56320))).
        unfold is_high_surrogate, is_low_surrogate in *.
        apply andb_true_iff in Hh as [Hh1 Hh2]. apply andb_true_iff in Hl as [Hl1 Hl2].
        apply N.leb_le in Hh1, Hh2, Hl1, Hl2.
        repeat split; [|lia|].
        -- intros _ _. unfold utf8_4. repeat constructor; lia.
        -- intros _. exists d. split; [reflexivity | lia].
      * exists 0%nat, replacement_bytes. repeat split; [|lia|discriminate].
        intros _ _. repeat constructor; lia.
  - destruct (is_low_surrogate c).
    + exists 0%nat, replacement_bytes. repeat split; [|lia|discriminate].
      intros _ _. repeat constructor; lia.
    + exists 0%nat, (utf8_3 c). repeat split; [|lia|discriminate].
      intros Hc _. unfold utf8_3. repeat constructor; lia.
Qed.

Lemma utf8_encode_bytes (s : jsstring) : code_units s -> bytes (utf8_encode s).
Proof.
  remember (length s) as n eqn:Hn. revert s Hn.
  induction n as [n IH] using lt_wf_ind. intros s Hn Hs.
  destruct s as [|c r]; [constructor|].
  apply Forall_cons in Hs as [Hc Hr].
  destruct (utf8_encode_cons c r) as (k & front & -> & Hfront & Hk & _).
  apply Forall_app. split.
  - apply Hfront; [exact Hc|]. intros d Hd.
    exact (proj1 (Forall_forall _ _) Hr d Hd).
  - apply (IH (length (drop k r))); [|reflexivity|].
    + subst n. rewrite length_drop. cbn [length]. lia.
    + apply Forall_drop, Hr.
Qed.

(** Text in the seven-bit range is encoded as it stands, wherever it
    lies in the string. *)
Lemma utf8_encode_ascii (n b : jsstring) :
  ascii_text n -> utf8_encode (n ++ b) = n ++ utf8_encode b.
Proof.
  induction 1 as [|c n Hc Hn IH]; [reflexivity|].
  cbn [app utf8_encode]. destruct (N.ltb_spec c 128); [|lia].
  rewrite IH. reflexivity.
Qed.



Lemma getThemeColors_cases (theme : JsVal) :
  getThemeColors theme = OwnPalette theme_default
  \/ getThemeColors theme = OwnPalette theme_dark
  \/ getThemeColors theme = OwnPalette theme_forest
  \/ getThemeColors theme = OwnPalette theme_neutral
  \/ exists k, getThemeColors theme = Inherited k.
Proof.
  unfold getThemeColors, themes. cbn [own_property].
  repeat match goal with
         | |- context [if jsstring_eqb ?a ?b then _ else _] =>
           destruct (jsstring_eqb a b)
         end; auto.
  destruct (has_key _ _); eauto 6.
Qed.



Lemma lines_split (x : jsstring) (before after : list jsstring) (l : jsstring) :
  lines ((x :: before) ++ l :: after)
  = lines (x :: before) ++ (10 :: l) ++ concat (map (fun y => 10 :: y) after).
Proof.
  change (lines ((x :: before) ++ l :: after))
    with (x ++ concat (map (fun y => 10 :: y) (before ++ l :: after))).
  change (lines (x :: before)) with (x ++ concat (map (fun y => 10 :: y) before)).
  rewrite map_app, concat_app.
  change (concat (map (fun y => 10 :: y) (l :: after)))
    with ((10 :: l) ++ concat (map (fun y => 10 :: y) after)).
  rewrite <- (app_assoc x). reflexivity.
Qed.

Lemma lines_split_at (n : nat) (ls : list jsstring) (l : jsstring) :
  ls !! n = Some l -> take n ls <> [] ->
  lines ls = lines (take n ls) ++ (10 :: l)
                   ++ concat (map (fun y => 10 :: y) (drop (S n) ls)).
Proof.
  intros Hl Hne. rewrite <- (take_drop_middle ls n l Hl) at 1.
  destruct (take n ls) as [|x before]; [congruence|]. apply lines_split.
Qed.

(** Splits the template at its eleventh line, the comment, and closes
    the goal by evaluation. *)
Ltac split_template :=
  lazymatch goal with
  | |- exists pre post, lines ?ls = _ /\ _ =>
    let H1 := fresh "H1" in
    let H2 := fresh "H2" in
    let l := fresh "l" in
    assert (H2 : exists l, ls !! 10%nat = Some l) by (eexists; reflexivity);
    assert (H1 : take 10 ls <> []) by discriminate;
    destruct H2 as [l H2];
    rewrite (lines_split_at 10 ls l H2 H1);
    lazymatch goal with
    | |- exists pre post,
        lines ?before ++ _ ++ concat (map _ ?after) = _ /\ _ =>
      let before' := eval cbv beta iota delta [take] in before in
      let pre := eval vm_compute in (lines before' ++ lit "\n  ") in
      let after' := eval cbv beta iota delta [drop] in after in
      let post := eval vm_compute in (concat (map (fun x => 10 :: x) after')) in
      exists pre, post; split;
      [ cbv beta iota zeta delta [lookup list_lookup] in H2;
        injection H2 as <-; cbn [app]; rewrite <- !app_assoc;
        vm_compute; reflexivity
      | clear H1 H2; repeat split; vm_compute; reflexivity ]
    end
  end.

Lemma svg_template_shape (s : jsstring) (theme : JsVal) :
  exists svg,
    generateSVGTemplate (JStr s) theme = inr svg
    /\ demo_template (getThemeColors theme) (slice0 50 s) svg.
Proof.
  eexists. split; [reflexivity|]. unfold demo_template.
  cbv beta iota zeta delta [generateSVGTemplate call_slice0].
  destruct (getThemeColors_cases theme) as [E|[E|[E|[E|[k E]]]]]; rewrite E;
    cbn [color]; split_template.
Qed.

Lemma forallb_ascii_text (s : jsstring) :
  forallb (fun c => c <? 128) s = true -> ascii_text s.
Proof.
  intros Hs. apply Forall_forall. intros c Hc.
  apply N.ltb_lt. apply (proj1 (forallb_forall _ _) Hs). apply list_elem_of_In, Hc.
Qed.

Lemma ascii_text_code_units (s : jsstring) : ascii_text s -> code_units s.
Proof.
  intros Hs. eapply Forall_impl; [exact Hs|]. intros c Hc. cbv beta in *. lia.
Qed.

Lemma demo_template_code_units (tc : ThemeColors) (head svg : jsstring) :
  demo_template tc head svg -> code_units head -> code_units svg.
Proof.
  intros (pre & post & -> & _ & _ & _ & _ & _ & _ & _ & _ & _ & Hpre & Hpost & _) Hh.
  apply Forall_app_2;
    [apply ascii_text_code_units, forallb_ascii_text; exact Hpre|].
  apply Forall_app_2;
    [apply ascii_text_code_units, forallb_ascii_text; vm_compute; reflexivity|].
  apply Forall_app_2; [exact Hh|].
  apply Forall_app_2;
    [apply ascii_text_code_units, forallb_ascii_text; vm_compute; reflexivity|].
  apply ascii_text_code_units, forallb_ascii_text; exact Hpost.
Qed.


Section Template.
Context {W : Type} `{Node W}.



End Template.

Lemma getThemeColors_fallback (theme : JsVal) :
  own_property (ToString theme) themes = None ->
  getThemeColors theme
  = if has_key (ToString theme) object_prototype_properties
    then Inherited (ToString theme)
    else OwnPalette theme_default.
Proof. unfold getThemeColors. intros ->. reflexivity. Qed.

(** C7. The palette lookup at the two theme names [nonexistent] and
    [constructor], neither of them one of default, dark, forest and
    neutral: the first falls back to the default palette; the second
    finds the inherited property of the object literal, so the exported
    SVG, still a success, carries [undefined] for its colors and not the
    default palette. *)
Theorem theme_fallback_misses_prototype_keys :
  getThemeColors (JStr (lit "nonexistent")) = OwnPalette theme_default
  /\ getThemeColors (JStr (lit "constructor")) = Inherited (lit "constructor")
  /\ (exists svg,
         generateSVGTemplate example_code (JStr (lit "nonexistent")) = inr svg
         /\ includes (lit ".node { fill: #fff; stroke: #333; stroke-width: 2; }") svg
            = true)
  /\ (exists svg,
         generateSVGTemplate example_code (JStr (lit "constructor")) = inr svg
         /\ includes (lit ".node { fill: #fff; stroke: #333; stroke-width: 2; }") svg
            = false
         /\ includes
              (lit ".node { fill: undefined; stroke: undefined; stroke-width: 2; }")
              svg = true)
  /\ exists r st1,
      exportDiagram (export_example (JStr (lit "svg")) (JStr (lit "constructor"))
                                    JUndefined) st0 = (inr r, st1)
      /\ success r = true.
Proof.
  split; [vm_compute; reflexivity|]. split; [vm_compute; reflexivity|].
  split; [eexists; split; [vm_compute; reflexivity | vm_compute; reflexivity]|].
  split; [eexists; split; [vm_compute; reflexivity |
                           split; vm_compute; reflexivity]|].
  eexists _, _. split; [vm_compute; reflexivity | reflexivity].
Qed.

(** ** The catalogue and the arguments *)

(** C3. Evaluation of the listing against the handlers: the handler of
    generate_diagram_from_code substitutes ['auto'] for an absent
    [diagram_type] (its log line shows it) while the schema declares no
    default for that property; the handlers destructure exactly the
    properties of their schemas, and for every other property the
    declared default and the substituted default agree. *)
Theorem schema_omits_the_default_of_diagram_type :
  handler_default (lit "generate_diagram_from_code") (lit "diagram_type")
  = Some (JStr (lit "auto"))
  /\ schema_default (lit "generate_diagram_from_code") (lit "diagram_type") = None
  /\ map log_message
         (stderr (snd (generateDiagramFromCode
                         (Some (obj [(lit "code", JStr (lit "f()"))])) st0)))
     = [ lit "Generating auto diagram from unknown code";
         lit "Validating diagram syntax (strict: false)" ]
  /\ Forall same_properties listTools
  /\ Forall (fun tf =>
               tf = (lit "generate_diagram_from_code", lit "diagram_type")
               \/ schema_default (fst tf) (snd tf) = handler_default (fst tf) (snd tf))
            schema_fields.
Proof.
  split; [vm_compute; reflexivity|]. split; [vm_compute; reflexivity|].
  split; [vm_compute; reflexivity|]. split.
  - unfold listTools.
    repeat (apply Forall_cons_2; [vm_compute; reflexivity|]). apply Forall_nil_2.
  - let l := eval vm_compute in schema_fields in change schema_fields with l.
    repeat (apply Forall_cons_2;
            [first [ right; vm_compute; reflexivity | left; vm_compute; reflexivity ]|]).
    apply Forall_nil_2.
Qed.





Ltac eval_eqb :=
  repeat match goal with
         | |- context [jsstring_eqb (lit ?a) (lit ?b)] =>
           let v := eval vm_compute in (jsstring_eqb (lit a) (lit b)) in
           change (jsstring_eqb (lit a) (lit b)) with v
         end.



Section Arguments.
Context {W : Type} `{Node W}.








End Arguments.

(** ** Frames: the file system and the error stream *)


Section Frames.
Context {W : Type}.

Lemma bind_lift_inr {A B} (a : A) (k : A -> M W B) :
  bind (lift (inr a)) k = k a.
Proof. reflexivity. Qed.

Lemma keeps_fs_ret {A} (a : A) : keeps_fs (W:=W) (ret a).
Proof. intros st. reflexivity. Qed.

Lemma keeps_fs_throw {A} (e : Thrown) : keeps_fs (W:=W) (A:=A) (throw e).
Proof. intros st. reflexivity. Qed.

Lemma keeps_fs_lift {A} (r : Thrown + A) : keeps_fs (W:=W) (lift r).
Proof. intros st. reflexivity. Qed.

Lemma keeps_fs_log lv ctx msg err : keeps_fs (W:=W) (log lv ctx msg err).
Proof. intros st. reflexivity. Qed.

Lemma keeps_fs_bind {A B} (m : M W A) (k : A -> M W B) :
  keeps_fs m -> (forall a, keeps_fs (k a)) -> keeps_fs (bind m k).
Proof.
  intros Hm Hk st. unfold bind. specialize (Hm st).
  destruct (m st) as [[e|a] st1]; cbn [snd] in *; [exact Hm|].
  rewrite Hk. exact Hm.
Qed.

Lemma keeps_fs_try_catch {A} (m : M W A) (h : Thrown -> M W A) :
  keeps_fs m -> (forall e, keeps_fs (h e)) -> keeps_fs (try_catch m h).
Proof.
  intros Hm Hh st. unfold try_catch. specialize (Hm st).
  destruct (m st) as [[e|a] st1]; cbn [snd] in *; [|exact Hm].
  rewrite Hh. exact Hm.
Qed.

Lemma appends_ret {A} (a : A) : appends (W:=W) (ret a).
Proof. intros st. exists []. symmetry. apply app_nil_r. Qed.

Lemma appends_throw {A} (e : Thrown) : appends (W:=W) (A:=A) (throw e).
Proof. intros st. exists []. symmetry. apply app_nil_r. Qed.

Lemma appends_lift {A} (r : Thrown + A) : appends (W:=W) (lift r).
Proof. intros st. exists []. symmetry. apply app_nil_r. Qed.

Lemma appends_log lv ctx msg err : appends (W:=W) (log lv ctx msg err).
Proof. intros st. eexists. reflexivity. Qed.

Lemma appends_bind {A B} (m : M W A) (k : A -> M W B) :
  appends m -> (forall a, appends (k a)) -> appends (bind m k).
Proof.
  intros Hm Hk st. unfold bind. destruct (Hm st) as [n1 H1].
  destruct (m st) as [[e|a] st1]; cbn [snd] in *; [exists n1; exact H1|].
  destruct (Hk a st1) as [n2 H2]. exists (n1 ++ n2).
  rewrite H2, H1, app_assoc. reflexivity.
Qed.

Lemma appends_try_catch {A} (m : M W A) (h : Thrown -> M W A) :
  appends m -> (forall e, appends (h e)) -> appends (try_catch m h).
Proof.
  intros Hm Hh st. unfold try_catch. destruct (Hm st) as [n1 H1].
  destruct (m st) as [[e|a] st1]; cbn [snd] in *; [|exists n1; exact H1].
  destruct (Hh e st1) as [n2 H2]. exists (n1 ++ n2).
  rewrite H2, H1, app_assoc. reflexivity.
Qed.

Lemma quiet_ret {A} (a : A) : quiet (W:=W) (ret a).
Proof.
  intros st b st1 [= _ <-]. exists []. split; [symmetry; apply app_nil_r | constructor].
Qed.

Lemma quiet_throw {A} (e : Thrown) : quiet (W:=W) (A:=A) (throw e).
Proof. intros st b st1 [=]. Qed.

Lemma quiet_lift {A} (r : Thrown + A) : quiet (W:=W) (lift r).
Proof.
  intros st b st1 [= _ <-]. exists []. split; [symmetry; apply app_nil_r | constructor].
Qed.

Lemma quiet_info ctx msg : quiet (W:=W) (logger_info ctx msg).
Proof.
  intros st b st1 [= _ <-]. eexists. split; [reflexivity|]. repeat constructor.
Qed.

Lemma quiet_bind {A B} (m : M W A) (k : A -> M W B) :
  quiet m -> (forall a, quiet (k a)) -> quiet (bind m k).
Proof.
  intros Hm Hk st b st2. unfold bind.
  destruct (m st) as [[e|a] st1] eqn:E; [discriminate|]. intros Hkr.
  destruct (Hm _ _ _ E) as (n1 & H1 & F1). destruct (Hk a _ _ _ Hkr) as (n2 & H2 & F2).
  exists (n1 ++ n2). split; [rewrite H2, H1, app_assoc; reflexivity|].
  apply Forall_app_2; assumption.
Qed.

(** A handler that rethrows keeps what the body has shown. *)
Lemma quiet_try_rethrow {A} (m : M W A) (h : Thrown -> M W A) :
  quiet m -> (forall e st, exists e1 st1, h e st = (inl e1, st1)) ->
  quiet (try_catch m h).
Proof.
  intros Hm Hh st b st2. unfold try_catch.
  destruct (m st) as [[e|a] st1] eqn:E.
  - destruct (Hh e st1) as (e1 & st3 & ->). discriminate.
  - intros [= <- <-]. exact (Hm _ _ _ E).
Qed.

End Frames.

Section FramesNode.
Context {W : Type} `{Node W}.

Lemma appends_fs_op (op : W -> Thrown + W) : appends (fs_op op).
Proof.
  intros st. exists []. unfold fs_op. destruct (op (fs st)); cbn [snd stderr];
    symmetry; apply app_nil_r.
Qed.

Ltac frame_step :=
  lazymatch goal with
  | |- appends (bind _ _) => apply appends_bind; [|intros ?]
  | |- appends (try_catch _ _) => apply appends_try_catch; [|intros ?]
  | |- appends (rethrow _ _) => apply appends_throw
  | |- appends (throw _) => apply appends_throw
  | |- appends (ret _) => apply appends_ret
  | |- appends (lift _) => apply appends_lift
  | |- appends (logger_info _ _) => apply appends_log
  | |- appends (logger_error _ _ _) => apply appends_log
  | |- appends (fs_op _) => apply appends_fs_op
  | |- appends (if ?c then _ else _) => destruct c
  | |- appends (let x := _ in _) => cbv zeta
  | |- appends ((fun _ => _) _) => cbv beta
  | |- keeps_fs (bind _ _) => apply keeps_fs_bind; [|intros ?]
  | |- keeps_fs (try_catch _ _) => apply keeps_fs_try_catch; [|intros ?]
  | |- keeps_fs (rethrow _ _) => apply keeps_fs_throw
  | |- keeps_fs (throw _) => apply keeps_fs_throw
  | |- keeps_fs (ret _) => apply keeps_fs_ret
  | |- keeps_fs (lift _) => apply keeps_fs_lift
  | |- keeps_fs (logger_info _ _) => apply keeps_fs_log
  | |- keeps_fs (logger_error _ _ _) => apply keeps_fs_log
  | |- keeps_fs (let x := _ in _) => cbv zeta
  | |- keeps_fs ((fun _ => _) _) => cbv beta
  end.

Lemma appends_exportDiagram (o : ExportOptions) : appends (exportDiagram o).
Proof.
  unfold exportDiagram. cbv zeta.
  repeat frame_step;
    unfold renderSVG, renderPNG, renderPDF, renderHTML, ensureDirectoryExists,
      write_file, resolved;
    repeat frame_step.
Qed.

Lemma appends_validateDiagramSyntax (args : option Obj) :
  appends (validateDiagramSyntax (W:=W) args).
Proof. unfold validateDiagramSyntax. repeat frame_step. Qed.

Lemma keeps_fs_validateDiagramSyntax (args : option Obj) :
  keeps_fs (validateDiagramSyntax (W:=W) args).
Proof. unfold validateDiagramSyntax. repeat frame_step. Qed.

Lemma appends_dispatch (tool : jsstring) (args : option Obj) :
  appends (dispatch tool args).
Proof.
  unfold dispatch.
  repeat match goal with
         | |- appends (if ?c then _ else _) => destruct c
         end;
    [ unfold generateDiagramFromCode | unfold analyzeDiagramStructure
    | unfold suggestDiagramImprovements | unfold createWorkflowDiagram
    | unfold exportDiagramFormats | apply appends_validateDiagramSyntax
    | apply appends_throw ];
    repeat first [ apply appends_exportDiagram
                 | apply appends_validateDiagramSyntax
                 | frame_step ].
Qed.

Lemma keeps_fs_exportDiagram_inline (o : ExportOptions) :
  truthy (o_outputPath o) = false -> keeps_fs (exportDiagram o).
Proof.
  intros Hp. unfold exportDiagram. cbv zeta.
  unfold renderSVG, renderPNG, renderPDF, renderHTML. rewrite !Hp.
  repeat first [ frame_step
               | match goal with
                 | |- keeps_fs (if ?c then _ else _) => destruct c
                 end ].
Qed.

Lemma keeps_fs_dispatch (tool : jsstring) (args : option Obj) :
  (tool = lit "export_diagram_formats" ->
   forall a, args = Some a -> truthy (prop a (lit "output_path")) = false) ->
  keeps_fs (dispatch tool args).
Proof.
  intros Hexp. unfold dispatch.
  repeat match goal with
         | |- keeps_fs (if jsstring_eqb tool ?l then _ else _) =>
           destruct (jsstring_eqb tool l) eqn:?
         end;
    [ unfold generateDiagramFromCode | unfold analyzeDiagramStructure
    | unfold suggestDiagramImprovements | unfold createWorkflowDiagram
    | | apply keeps_fs_validateDiagramSyntax
    | apply keeps_fs_throw ];
    try (repeat first [ apply keeps_fs_validateDiagramSyntax | frame_step ]; fail).
  match goal with
  | E : jsstring_eqb tool _ = true |- _ => apply jsstring_eqb_eq in E; specialize (Hexp E)
  end.
  unfold exportDiagramFormats. destruct args as [a|].
  - specialize (Hexp a eq_refl). unfold destructure. rewrite bind_lift_inr.
    repeat frame_step.
    apply keeps_fs_exportDiagram_inline. exact Hexp.
  - unfold destructure. intros st. reflexivity.
Qed.

Lemma quiet_ensureDirectoryExists (p : JsVal) : quiet (ensureDirectoryExists p).
Proof.
  intros st b st1. unfold ensureDirectoryExists, bind, lift, try_catch, fs_op, ret.
  destruct (path_arg p); [discriminate|].
  destruct (mkdirSync _ _); intros [= _ <-]; exists [];
    (split; [symmetry; apply app_nil_r | constructor]).
Qed.

Lemma quiet_fs_op (op : W -> Thrown + W) : quiet (fs_op op).
Proof.
  intros st b st1. unfold fs_op. destruct (op (fs st)); [discriminate|].
  intros [= _ <-]. exists []. split; [symmetry; apply app_nil_r | constructor].
Qed.

Lemma rethrow_throws {A} (prefix : jsstring) (e : Thrown) (st : State W) :
  exists e1 st1, rethrow (A:=A) prefix e st = (inl e1, st1).
Proof. eexists _, _. reflexivity. Qed.

Ltac quiet_step :=
  lazymatch goal with
  | |- quiet (bind _ _) => apply quiet_bind; [|intros ?]
  | |- quiet (try_catch _ (rethrow _)) =>
    apply quiet_try_rethrow; [|apply rethrow_throws]
  | |- quiet (try_catch _ _) =>
    apply quiet_try_rethrow; [|intros ? ?; eexists _, _; reflexivity]
  | |- quiet (throw _) => apply quiet_throw
  | |- quiet (ret _) => apply quiet_ret
  | |- quiet (lift _) => apply quiet_lift
  | |- quiet (logger_info _ _) => apply quiet_info
  | |- quiet (ensureDirectoryExists _) => apply quiet_ensureDirectoryExists
  | |- quiet (fs_op _) => apply quiet_fs_op
  | |- quiet (if ?c then _ else _) => destruct c
  | |- quiet (let x := _ in _) => cbv zeta
  | |- quiet ((fun _ => _) _) => cbv beta
  end.

Lemma quiet_exportDiagram (o : ExportOptions) : quiet (exportDiagram o).
Proof.
  unfold exportDiagram. cbv zeta.
  repeat quiet_step;
    unfold renderSVG, renderPNG, renderPDF, renderHTML, write_file, resolved;
    repeat quiet_step.
Qed.

Lemma quiet_validateDiagramSyntax (args : option Obj) :
  quiet (validateDiagramSyntax (W:=W) args).
Proof. unfold validateDiagramSyntax. repeat quiet_step. Qed.

Lemma quiet_dispatch (tool : jsstring) (args : option Obj) :
  quiet (dispatch tool args).
Proof.
  unfold dispatch.
  repeat match goal with
         | |- quiet (if ?c then _ else _) => destruct c
         end;
    [ unfold generateDiagramFromCode | unfold analyzeDiagramStructure
    | unfold suggestDiagramImprovements | unfold createWorkflowDiagram
    | unfold exportDiagramFormats | apply quiet_validateDiagramSyntax
    | apply quiet_throw ];
    repeat first [ apply quiet_exportDiagram
                 | apply quiet_validateDiagramSyntax
                 | quiet_step ].
Qed.

(** X1. The call handler leaves the file system as it found it, whatever
    the tool, the arguments and the outcome, unless the request is an
    export_diagram_formats call whose [output_path] is truthy: only such
    an export reaches [mkdirSync] or [writeFileSync]. *)
Theorem only_an_export_to_a_path_writes (request : Request) (st : State W) :
  (r_name request = lit "export_diagram_formats" ->
   forall a, arguments request = Some a ->
             truthy (prop a (lit "output_path")) = false) ->
  fs (snd (callTool request st)) = fs st.
Proof.
  intros Hexp. unfold callTool.
  pose proof (keeps_fs_dispatch _ _ Hexp st) as Hd.
  destruct (dispatch (r_name request) (arguments request) st) as [[e|r] st1];
    exact Hd.
Qed.

(** X2. The call handler only appends to the error stream. When the
    handler of the tool returns, every line added is an [INFO] line; when
    it throws, the last line added is the [ERROR] line of [MermaidServer]
    that names the tool and carries the error thrown. *)
Theorem error_stream_is_append_only (request : Request) (st : State W) :
  exists new,
    stderr (snd (callTool request st)) = stderr st ++ new
    /\ (forall r st1,
          dispatch (r_name request) (arguments request) st = (inr r, st1) ->
          Forall (fun l => log_level l = INFO) new)
    /\ (forall e st1,
          dispatch (r_name request) (arguments request) st = (inl e, st1) ->
          last new = Some (failure_line (r_name request) e)).
Proof.
  unfold callTool.
  destruct (appends_dispatch (r_name request) (arguments request) st) as [n1 H1].
  destruct (dispatch (r_name request) (arguments request) st) as [[e|r] st1] eqn:E;
    cbn [snd] in *.
  - exists (n1 ++ [failure_line (r_name request) e]). split; [|split].
    + unfold logger_error, log. cbn [snd stderr]. rewrite H1, <- app_assoc.
      reflexivity.
    + intros r st2 [=].
    + intros e' st2 [= <- _]. apply last_snoc.
  - exists n1. split; [exact H1|]. split.
    + intros r' st2 _. destruct (quiet_dispatch _ _ _ _ _ E) as (n2 & H2 & F2).
      rewrite H1 in H2. apply app_inv_head in H2. subst n2. exact F2.
    + intros e st2 [=].
Qed.

End FramesNode.


(** ** The answers of the handlers *)


(** Evaluates a call down to the body of its handler. *)
Ltac run_call :=
  cbv beta iota zeta delta
      [callTool r_name arguments dispatch generateDiagramFromCode
       analyzeDiagramStructure suggestDiagramImprovements createWorkflowDiagram
       exportDiagramFormats validateDiagramSyntax destructure lift bind ret throw
       try_catch rethrow logger_info logger_error log performSyntaxValidation
       isValid].


Section Handlers.
Context {W : Type} `{Node W}.

Lemma createWorkflowDiagram_text (a : Obj) (st : State W) (t d : jsstring) :
  prop a (lit "workflow_type") = JStr t ->
  prop a (lit "workflow_description") = JStr d ->
  fst (createWorkflowDiagram (Some a) st)
  = inr {| content := [ text_block (
      lit "# " ++ toUpperCase t ++ lit " Workflow Diagram\n\n```mermaid\n"
        ++ generateWorkflowDiagram
             (JStr d) (JStr t)
             (default_to (JBool true) (prop a (lit "include_decision_points")))
             (default_to (JStr (lit "flowchart")) (prop a (lit "format")))
        ++ lit "\n```\n\n## Workflow Features\n- **Type**: " ++ t
        ++ lit "\n- **Format**: "
        ++ ToString (default_to (JStr (lit "flowchart")) (prop a (lit "format")))
        ++ lit "\n- **Decision Points**: "
        ++ (if truthy (default_to (JBool true)
                                  (prop a (lit "include_decision_points")))
            then lit "Included" else lit "Not included")
        ++ lit "\n- **Generated from**: " ++ take 100 d
        ++ (if (100 <? length d)%nat then lit "..." else [])) ] |}.
Proof.
  intros Ht Hd. run_call.
  change (var (map (bind_property a) pattern_createWorkflowDiagram)
              (lit "workflow_type")) with (prop a (lit "workflow_type")).
  change (var (map (bind_property a) pattern_createWorkflowDiagram)
              (lit "workflow_description"))
    with (prop a (lit "workflow_description")).
  change (var (map (bind_property a) pattern_createWorkflowDiagram)
              (lit "include_decision_points"))
    with (default_to (JBool true) (prop a (lit "include_decision_points"))).
  change (var (map (bind_property a) pattern_createWorkflowDiagram) (lit "format"))
    with (default_to (JStr (lit "flowchart")) (prop a (lit "format"))).
  rewrite Ht, Hd. reflexivity.
Qed.



Lemma callTool_returns (request : Request) (st : State W) (r : ToolResponse) :
  fst (dispatch (r_name request) (arguments request) st) = inr r ->
  fst (callTool request st) = r.
Proof.
  unfold callTool. destruct (dispatch _ _ st) as [[e|r'] st1]; cbn [fst].
  - discriminate.
  - intros [= ->]. reflexivity.
Qed.

Lemma create_workflow_call (a : Obj) (st : State W) (r : ToolResponse) :
  fst (createWorkflowDiagram (Some a) st) = inr r ->
  fst (callTool {| r_name := lit "create_workflow_diagram"; arguments := Some a |} st)
  = r.
Proof.
  intros Hr. apply callTool_returns. cbn [r_name arguments].
  unfold dispatch. eval_eqb. cbv iota. exact Hr.
Qed.


(** X4. The last line of that answer shows the description cut to its
    first 100 code units: the description as it stands when it has at most
    100, and its first 100 followed by three dots when it has more. *)
Theorem workflow_description_is_cut_at_100
        (a : Obj) (st : State W) (t d : jsstring) :
  prop a (lit "workflow_type") = JStr t ->
  prop a (lit "workflow_description") = JStr d ->
  exists before shown,
    fst (callTool {| r_name := lit "create_workflow_diagram";
                     arguments := Some a |} st)
    = {| content := [ text_block (before ++ lit "\n- **Generated from**: "
                                         ++ shown) ] |}
    /\ ((length d <= 100)%nat -> shown = d)
    /\ ((100 < length d)%nat -> shown = take 100 d ++ lit "...")
    /\ (length shown <= 103)%nat.
Proof.
  intros Ht Hd.
  pose proof (createWorkflowDiagram_text a st t d Ht Hd) as Htext.
  rewrite !app_assoc in Htext. rewrite <- (app_assoc _ (take 100 d)) in Htext.
  rewrite <- (app_assoc _ (lit "\n- **Generated from**: ")) in Htext.
  eexists _, (take 100 d ++ (if (100 <? length d)%nat then lit "..." else [])).
  split.
  - apply create_workflow_call. exact Htext.
  - destruct (Nat.ltb_spec 100 (length d)) as [Hlt|Hle].
    + split; [lia|]. split; [reflexivity|].
      rewrite length_app, length_take. change (length (lit "...")) with 3%nat. lia.
    + split; [intros _; rewrite app_nil_r; apply take_ge; lia|].
      split; [lia|]. rewrite app_nil_r, length_take. lia.
Qed.




End Handlers.


Section NoArguments.
Context {W : Type} `{Node W}.

(** X8. A request without an arguments object, for any tool of the
    listing: the handler throws while it destructures, before its [try],
    so the answer is the text [Error executing <name>: Cannot destructure
    property '<p>' of 'args' as it is undefined.], where [<p>] is the
    first property of the schema of the tool, with no handler prefix; the
    file system is untouched. *)
Theorem missing_arguments_object_is_reported (t : ToolDescriptor) (st : State W) :
  In t listTools ->
  exists first,
    head (properties (inputSchema t)) = Some first
    /\ fst (callTool {| r_name := name t; arguments := None |} st)
       = error_response (name t)
           (lit "Cannot destructure property '" ++ fst first
              ++ lit "' of 'args' as it is undefined.")
    /\ fs (snd (callTool {| r_name := name t; arguments := None |} st)) = fs st.
Proof.
  intros Hin. unfold listTools in Hin. cbn [In] in Hin.
  repeat (destruct Hin as [<-|Hin]); [..|contradiction];
    cbn [head properties inputSchema name]; eexists; (split; [reflexivity|]);
    cbn [fst]; unfold callTool, dispatch; cbn [r_name arguments]; eval_eqb;
    cbv iota; run_call; cbn [fst snd fs message_or]; split; reflexivity.
Qed.

End NoArguments.


Lemma has_key_In (key : jsstring) (ks : list jsstring) :
  has_key key ks = true <-> In key ks.
Proof.
  unfold has_key. rewrite existsb_exists. split.
  - intros (k & Hk & E). apply jsstring_eqb_eq in E. subst. exact Hk.
  - intros Hk. exists key. split; [exact Hk | apply jsstring_eqb_eq; reflexivity].
Qed.

Section Prefixes.
Context {W : Type} `{Node W}.








End Prefixes.


Ltac eval_is_str :=
  repeat match goal with
         | |- context [is_str (JStr (lit ?a)) (lit ?b)] =>
           let v := eval vm_compute in (is_str (JStr (lit a)) (lit b)) in
           change (is_str (JStr (lit a)) (lit b)) with v
         end.


Section InlineResponse.
Context {W : Type} `{Node W}.





End InlineResponse.


(** ** Edges of the export pipeline *)


Section ExportEdges.
Context {W : Type} `{Node W}.

(** X11. An export to an output path that is truthy and no string
    ([true], a number other than 0) throws the argument error of
    [path.dirname], which [ensureDirectoryExists] calls outside its [try].
    Nothing is created or written, and the renderer logs
    [Export failed:]. *)
Theorem export_rejects_a_path_that_is_no_string
        (f : Format) (s : jsstring) (o : ExportOptions) (st : State W) :
  o_format o = JStr (format_name f) ->
  o_diagramCode o = JStr s ->
  truthy (o_outputPath o) = true ->
  (forall p, o_outputPath o <> JStr p) ->
  exists e st1,
    exportDiagram o st = (inl e, st1)
    /\ path_arg (o_outputPath o) = inl e
    /\ fs st1 = fs st
    /\ last (stderr st1)
       = Some {| log_level := ERROR; log_context := lit "MermaidRenderer";
                 log_message := lit "Export failed:"; log_error := Some e |}.
Proof.
  intros Hf Hc Hp Hns. rewrite exportDiagram_render. unfold render.
  rewrite Hf, Hc. cbv zeta.
  destruct (o_outputPath o) as [| |b|n|p] eqn:Ep; try discriminate;
    [| |exfalso; exact (Hns p eq_refl)];
    destruct f; cbn [format_name]; eval_is_str; cbv iota;
    unfold renderSVG, renderPNG, renderPDF, renderHTML;
    rewrite ?svg_template_string; cbv zeta; rewrite ?Hp; cbn [call_slice0];
    unfold ensureDirectoryExists, bind, lift, path_arg; cbn [logged fs stderr];
    (eexists _, _; split; [reflexivity|]; split; [reflexivity|];
     split; [reflexivity|]; cbn [stderr]; apply last_snoc).
Qed.

(** X12. A diagram source that is no string ([undefined], [null], a
    boolean, a number). An svg export, and a png or pdf export with an
    output path, throw the [TypeError] of [diagramCode.slice] before the
    file system is touched. A png, pdf or html export without output path
    returns a result: it never calls a string method of the source. *)
Theorem export_of_a_source_that_is_no_string (o : ExportOptions) (st : State W) :
  (forall s, o_diagramCode o <> JStr s) ->
  (o_format o = JStr (lit "svg")
   \/ ((o_format o = JStr (lit "png") \/ o_format o = JStr (lit "pdf"))
       /\ truthy (o_outputPath o) = true) ->
   exists st1,
     exportDiagram o st
     = (inl (no_method (lit "diagramCode") (lit "slice") (o_diagramCode o)), st1)
     /\ fs st1 = fs st)
  /\ ((o_format o = JStr (lit "png") \/ o_format o = JStr (lit "pdf")
       \/ o_format o = JStr (lit "html")) ->
      truthy (o_outputPath o) = false ->
      exists r st1,
        exportDiagram o st = (inr r, st1) /\ success r = true /\ fs st1 = fs st).
Proof.
  intros Hns.
  assert (Hslice : forall n, call_slice0 (lit "diagramCode") n (o_diagramCode o)
                             = inl (no_method (lit "diagramCode") (lit "slice")
                                              (o_diagramCode o))).
  { intros n. destruct (o_diagramCode o) as [| | | |s]; try reflexivity.
    exfalso. exact (Hns s eq_refl). }
  rewrite exportDiagram_render. unfold render. cbv zeta. split.
  - intros [Hf|[[Hf|Hf] Hp]]; rewrite Hf; eval_is_str; cbv iota;
      unfold renderSVG, renderPNG, renderPDF, generateSVGTemplate;
      cbv zeta; rewrite ?Hp, ?Hslice; unfold bind, lift;
      eexists; (split; [reflexivity|]); reflexivity.
  - intros [Hf|[Hf|Hf]] Hp; rewrite Hf; eval_is_str; cbv iota;
      unfold renderPNG, renderPDF, renderHTML; cbv zeta; rewrite Hp;
      unfold ret; eexists _, _; (split; [reflexivity|]); split; reflexivity.
Qed.


End ExportEdges.


(** ** The HTML page, the payloads and the palette *)


Lemma lines_split2 (i j : nat) (ls : list jsstring) (x a y b : jsstring) :
  ls !! i = Some x ->
  drop (S i) ls !! j = Some (a ++ y ++ b) ->
  take i ls <> [] ->
  lines ls
  = (lines (take i ls) ++ [10]) ++ x
      ++ (concat (map (fun l => 10 :: l) (take j (drop (S i) ls))) ++ 10 :: a)
      ++ y ++ (b ++ concat (map (fun l => 10 :: l) (drop (S j) (drop (S i) ls)))).
Proof.
  intros Hi Hj Hne. rewrite (lines_split_at i ls x Hi Hne).
  rewrite <- (take_drop_middle (drop (S i) ls) j _ Hj) at 1.
  rewrite map_app, concat_app. cbn [map concat].
  rewrite <- !app_assoc. cbn [app]. rewrite <- !app_assoc. reflexivity.
Qed.

Lemma app_frames (P1 P2 P3 h D E m T F t x y : jsstring) :
  P1 = h ++ D -> P2 = E ++ m ++ T -> P3 = F ++ t ->
  P1 ++ x ++ P2 ++ y ++ P3 = h ++ D ++ x ++ E ++ m ++ T ++ y ++ F ++ t.
Proof. intros -> -> ->. rewrite <- !app_assoc. reflexivity. Qed.

Lemma html_template_shape (code theme : JsVal) :
  exists head mid tail,
    generateHTMLTemplate code theme
    = head ++ lit "        <div class=\qmermaid\q>\n" ++ ToString code
           ++ lit "\n        </div>\n" ++ mid
           ++ lit "            theme: '" ++ ToString theme ++ lit "',\n" ++ tail
    /\ includes (lit "background: #1e1e1e; color: #d4d4d4;") head
       = is_str theme (lit "dark")
    /\ includes (lit "background: white; color: black;") head
       = negb (is_str theme (lit "dark"))
    /\ starts_with (lit "<!DOCTYPE html>\n") head = true
    /\ tail = lit "            securityLevel: 'loose'\n        });\n    </script>\n</body>\n</html>"
    /\ forallb (fun c => c <? 128) head = true
    /\ forallb (fun c => c <? 128) mid = true.
Proof.
  unfold generateHTMLTemplate.
  destruct (is_str theme (lit "dark"));
    lazymatch goal with
    | |- exists head mid tail, lines ?ls = _ /\ _ =>
      rewrite (lines_split2 24 6 ls (ToString code) (lit "            theme: '")
                            (ToString theme) (lit "',")
                            eq_refl eq_refl ltac:(discriminate));
      lazymatch goal with
      | |- exists head mid tail, ?P1 ++ _ ++ ?P2 ++ _ ++ ?P3 = _ /\ _ =>
        let D := constr:(lit "        <div class=\qmermaid\q>\n") in
        let E := constr:(lit "\n        </div>\n") in
        let T := constr:(lit "            theme: '") in
        let F := constr:(lit "',\n") in
        let p1 := eval vm_compute in P1 in
        let h := eval vm_compute in (take (length p1 - length D) p1) in
        let p2 := eval vm_compute in P2 in
        let m := eval vm_compute in
                   (take (length p2 - length E - length T) (drop (length E) p2)) in
        let p3 := eval vm_compute in P3 in
        let t := eval vm_compute in (drop (length F) p3) in
        exists h, m, t; split;
        [ apply (app_frames P1 P2 P3 h D E m T F t); vm_compute; reflexivity
        | repeat split; vm_compute; reflexivity ]
      end
    end.
Qed.

Lemma ascii_lit_code_units (s : jsstring) :
  forallb (fun c => c <? 128) s = true -> code_units s.
Proof. intros Hs. apply ascii_text_code_units, forallb_ascii_text, Hs. Qed.

Lemma file_contents_code_units (f : Format) (s : jsstring) (theme : JsVal) :
  code_units s -> code_units (ToString theme) ->
  code_units (file_contents f s theme).
Proof.
  intros Hs Ht. destruct f; cbn [file_contents].
  - destruct (svg_template_shape s theme) as (svg & -> & Hshape).
    apply (demo_template_code_units _ _ _ Hshape). apply Forall_take, Hs.
  - apply Forall_app_2; [apply ascii_lit_code_units; vm_compute; reflexivity|].
    apply Forall_app_2; [apply Forall_take, Hs|].
    apply ascii_lit_code_units; vm_compute; reflexivity.
  - apply Forall_app_2; [apply ascii_lit_code_units; vm_compute; reflexivity|].
    apply Forall_app_2; [apply Forall_take, Hs|].
    apply ascii_lit_code_units; vm_compute; reflexivity.
  - destruct (html_template_shape (JStr s) theme)
      as (head & mid & tail & -> & _ & _ & _ & -> & Hhead & Hmid).
    apply Forall_app_2; [apply ascii_lit_code_units, Hhead|].
    apply Forall_app_2; [apply ascii_lit_code_units; vm_compute; reflexivity|].
    apply Forall_app_2; [exact Hs|].
    apply Forall_app_2; [apply ascii_lit_code_units; vm_compute; reflexivity|].
    apply Forall_app_2; [apply ascii_lit_code_units, Hmid|].
    apply Forall_app_2; [apply ascii_lit_code_units; vm_compute; reflexivity|].
    apply Forall_app_2; [exact Ht|].
    apply Forall_app_2; apply ascii_lit_code_units; vm_compute; reflexivity.
Qed.

(** X14. The HTML page holds the diagram source as it stands, with no
    escaping, between the opening tag of the mermaid [div] and its closing
    tag, and the theme as it stands inside the string literal of
    [mermaid.initialize], followed by [securityLevel: 'loose']. The dark
    body style is used exactly when the theme is the string [dark], the
    white one otherwise; all the rest of the page is fixed seven-bit
    text. *)
Theorem html_template_embeds_source_and_theme (code theme : JsVal) :
  exists head mid tail,
    generateHTMLTemplate code theme
    = head ++ lit "        <div class=\qmermaid\q>\n" ++ ToString code
           ++ lit "\n        </div>\n" ++ mid
           ++ lit "            theme: '" ++ ToString theme ++ lit "',\n" ++ tail
    /\ starts_with (lit "<!DOCTYPE html>\n") head = true
    /\ includes (lit "background: #1e1e1e; color: #d4d4d4;") head
       = is_str theme (lit "dark")
    /\ includes (lit "background: white; color: black;") head
       = negb (is_str theme (lit "dark"))
    /\ ascii_text head /\ ascii_text mid
    /\ tail = lit "            securityLevel: 'loose'\n        });\n    </script>\n</body>\n</html>".
Proof.
  destruct (html_template_shape code theme)
    as (head & mid & tail & Hhtml & Hdark & Hwhite & Hdoc & Htail & Hhead & Hmid).
  exists head, mid, tail. split; [exact Hhtml|]. split; [exact Hdoc|].
  split; [exact Hdark|]. split; [exact Hwhite|].
  split; [apply forallb_ascii_text, Hhead|].
  split; [apply forallb_ascii_text, Hmid | exact Htail].
Qed.

Section Payloads.
Context {W : Type} `{Node W}.

(** X15. For svg and html the two modes of an export agree: the
    [base64Data] of an export without output path decodes to the very
    bytes, the UTF-8 encoding of the document, that an export of the same
    options with an output path leaves in its file, and both report the
    same size. *)
Theorem inline_payload_decodes_to_the_file_bytes
        (f : Format) (s : jsstring) (o : ExportOptions) (st : State W) :
  f = SVG \/ f = HTML ->
  o_format o = JStr (format_name f) ->
  o_diagramCode o = JStr s ->
  code_units s ->
  code_units (ToString (theme_of o)) ->
  exists r b data,
    fst (exportDiagram (with_outputPath o JUndefined) st) = inr r
    /\ base64Data r = Some b
    /\ base64_decode b = Some data
    /\ bytes data
    /\ forall c p (st' st1' : State W) r',
        exportDiagram (with_outputPath o (JStr (c :: p))) st' = (inr r', st1') ->
        readFile (fs st1') (c :: p) = Some data /\ size r' = size r.
Proof.
  intros Hsh Hf Hc Hs Ht.
  destruct (exportDiagram_inline f s (with_outputPath o JUndefined) st Hf Hc eq_refl)
    as (r & Hr & _ & _ & Hb & Hz).
  change (theme_of (with_outputPath o JUndefined)) with (theme_of o) in Hb, Hz.
  exists r, (inline_base64 f s (theme_of o)),
    (utf8_encode (file_contents f s (theme_of o))).
  split; [rewrite Hr; reflexivity|]. split; [exact Hb|].
  assert (Hbytes : bytes (utf8_encode (file_contents f s (theme_of o))))
    by (apply utf8_encode_bytes, file_contents_code_units; assumption).
  split.
  { destruct Hsh as [-> | ->]; cbn [inline_base64];
      apply base64_decode_encode, Hbytes. }
  split; [exact Hbytes|].
  intros c p st' st1' r' Hr'.
  pose proof (exportDiagram_file f s (with_outputPath o (JStr (c :: p))) st' c p
                Hf Hc eq_refl) as Hx.
  change (theme_of (with_outputPath o (JStr (c :: p)))) with (theme_of o) in Hx.
  destruct (writeFileSync (c :: p) (file_contents f s (theme_of o))
                          (ensured (c :: p) (fs st'))) as [e|w1] eqn:Hw.
  - rewrite Hx in Hr'. discriminate.
  - destruct Hx as (r'' & Hx & _ & _ & _ & Hz'). rewrite Hx in Hr'.
    injection Hr' as <- <-. cbn [fs].
    split; [exact (writeFileSync_readFile _ _ _ _ Hw)|]. congruence.
Qed.

(** X16. For png and pdf the two modes do not agree: the [base64Data]
    decodes to a file that begins with the PNG signature, or with the
    header [%PDF-1.4], and an export with an output path never writes
    that file; it writes text that begins with
    [PNG export placeholder for diagram: ] (or [PDF ...]). Both report
    the same size. *)
Theorem placeholder_file_is_not_the_inline_image
        (f : Format) (s : jsstring) (o : ExportOptions) (st : State W) :
  f = PNG \/ f = PDF ->
  o_format o = JStr (format_name f) ->
  o_diagramCode o = JStr s ->
  exists r b image,
    fst (exportDiagram (with_outputPath o JUndefined) st) = inr r
    /\ base64Data r = Some b
    /\ base64_decode b = Some image
    /\ starts_with (match f with
                    | PDF => lit "%PDF-1.4\n"
                    | _ => [137; 80; 78; 71; 13; 10; 26; 10]
                    end) image = true
    /\ forall c p (st' st1' : State W) r',
        exportDiagram (with_outputPath o (JStr (c :: p))) st' = (inr r', st1') ->
        exists written,
          readFile (fs st1') (c :: p) = Some written
          /\ starts_with (match f with
                          | PDF => lit "PDF export placeholder for diagram: "
                          | _ => lit "PNG export placeholder for diagram: "
                          end) written = true
          /\ written <> image
          /\ size r' = size r.
Proof.
  intros Hsh Hf Hc.
  destruct (exportDiagram_inline f s (with_outputPath o JUndefined) st Hf Hc eq_refl)
    as (r & Hr & _ & _ & Hb & Hz).
  change (theme_of (with_outputPath o JUndefined)) with (theme_of o) in Hb, Hz.
  assert (Himg : exists image,
             base64_decode (inline_base64 f s (theme_of o)) = Some image
             /\ starts_with (match f with
                             | PDF => lit "%PDF-1.4\n"
                             | _ => [137; 80; 78; 71; 13; 10; 26; 10]
                             end) image = true
             /\ (head image = Some 137 \/ head image = Some 37)).
  { destruct Hsh as [-> | ->]; cbn [inline_base64]; eexists;
      (split; [vm_compute; reflexivity|]); split;
      [vm_compute; reflexivity | left; reflexivity
       | vm_compute; reflexivity | right; reflexivity]. }
  destruct Himg as (image & Hdec & Hsig & Hhead).
  exists r, (inline_base64 f s (theme_of o)), image.
  split; [rewrite Hr; reflexivity|]. split; [exact Hb|]. split; [exact Hdec|].
  split; [exact Hsig|].
  intros c p st' st1' r' Hr'.
  pose proof (exportDiagram_file f s (with_outputPath o (JStr (c :: p))) st' c p
                Hf Hc eq_refl) as Hx.
  change (theme_of (with_outputPath o (JStr (c :: p)))) with (theme_of o) in Hx.
  destruct (writeFileSync (c :: p) (file_contents f s (theme_of o))
                          (ensured (c :: p) (fs st'))) as [e|w1] eqn:Hw.
  - rewrite Hx in Hr'. discriminate.
  - destruct Hx as (r'' & Hx & _ & _ & _ & Hz'). rewrite Hx in Hr'.
    injection Hr' as <- <-. cbn [fs].
    exists (utf8_encode (file_contents f s (theme_of o))).
    split; [exact (writeFileSync_readFile _ _ _ _ Hw)|].
    assert (Hpre : exists rest,
               utf8_encode (file_contents f s (theme_of o))
               = (match f with
                  | PDF => lit "PDF export placeholder for diagram: "
                  | _ => lit "PNG export placeholder for diagram: "
                  end) ++ rest).
    { destruct Hsh as [-> | ->]; cbn [file_contents];
        (rewrite utf8_encode_ascii;
         [eexists; reflexivity | apply forallb_ascii_text; vm_compute; reflexivity]). }
    destruct Hpre as (rest & ->).
    split; [apply starts_with_app|]. split; [|congruence].
    intros Heq. rewrite <- Heq in Hhead.
    destruct Hsh as [-> | ->]; destruct Hhead as [Hh | Hh]; vm_compute in Hh;
      discriminate.
Qed.

End Payloads.


Lemma svg_template_frames (s : jsstring) (theme : JsVal) :
  exists pre post,
    file_contents SVG s theme
    = pre ++ lit "<!-- Generated from Mermaid code: " ++ slice0 50 s
          ++ lit "... -->" ++ post
    /\ (894 <=? length pre + length post)%nat
       && (length pre + length post <=? 1000)%nat = true.
Proof.
  cbv beta iota zeta delta [file_contents generateSVGTemplate call_slice0].
  destruct (getThemeColors_cases theme) as [E|[E|[E|[E|[k E]]]]]; rewrite E;
    cbn [color];
    lazymatch goal with
    | |- exists pre post, lines ?ls = _ /\ _ =>
      let H1 := fresh "H1" in
      let H2 := fresh "H2" in
      let l := fresh "l" in
      assert (H2 : exists l, ls !! 10%nat = Some l) by (eexists; reflexivity);
      assert (H1 : take 10 ls <> []) by discriminate;
      destruct H2 as [l H2];
      rewrite (lines_split_at 10 ls l H2 H1);
      lazymatch goal with
      | |- exists pre post,
          lines ?before ++ _ ++ concat (map _ ?after) = _ /\ _ =>
        let before' := eval cbv beta iota delta [take] in before in
        let pre := eval vm_compute in (lines before' ++ lit "\n  ") in
        let after' := eval cbv beta iota delta [drop] in after in
        let post := eval vm_compute in (concat (map (fun x => 10 :: x) after')) in
        exists pre, post; split;
        [ cbv beta iota zeta delta [lookup list_lookup] in H2;
          injection H2 as <-; cbn [app]; rewrite <- !app_assoc;
          vm_compute; reflexivity
        | clear H1 H2; vm_compute; reflexivity ]
      end
    end.
Qed.

Lemma svg_template_length (s : jsstring) (theme : JsVal) :
  (900 <= length (file_contents SVG s theme) <= 1100)%nat.
Proof.
  destruct (svg_template_frames s theme) as (pre & post & -> & Hlen).
  apply andb_true_iff in Hlen as [Hlo Hhi].
  apply Nat.leb_le in Hlo, Hhi.
  rewrite !length_app. unfold slice0. rewrite length_take.
  change (length (lit "<!-- Generated from Mermaid code: ")) with 34%nat.
  change (length (lit "... -->")) with 7%nat. lia.
Qed.

Lemma size_kb_1 (x : jsstring) :
  (512 <= length x < 1536)%nat -> size_kb x = lit "1KB".
Proof.
  intros Hx. unfold size_kb, round_kb, jslength.
  replace ((Z.of_nat (length x) + 512) / 1024)%Z with 1%Z; [reflexivity|].
  apply Z.div_unique with (r := (Z.of_nat (length x) - 512)%Z); lia.
Qed.

Section SvgSize.
Context {W : Type} `{Node W}.

(** X17. Every svg export that returns reports the size [1KB]: its
    diagram source is a string, and the document has between 900 and 1100
    code units for every theme and every length of the source, of which
    it holds at most 50 code units. *)
Theorem svg_export_always_reports_1KB
        (o : ExportOptions) (st st1 : State W) (r : ExportResult) :
  o_format o = JStr (lit "svg") ->
  exportDiagram o st = (inr r, st1) ->
  size r = lit "1KB"
  /\ exists s, o_diagramCode o = JStr s
               /\ (900 <= length (file_contents SVG s (theme_of o)) <= 1100)%nat.
Proof.
  intros Hf. rewrite exportDiagram_render.
  destruct (render o _) as [[e|r0] st0] eqn:E; intros [= <- <-].
  revert E. unfold render. rewrite Hf. cbv zeta. fold (theme_of o).
  change (is_str (JStr (lit "svg")) (lit "svg")) with true. cbv iota.
  unfold renderSVG.
  destruct (o_diagramCode o) as [| | | |s] eqn:Ec;
    try (unfold bind, lift; cbn [generateSVGTemplate call_slice0]; discriminate).
  rewrite svg_template_string.
  pose proof (svg_template_length s (theme_of o)) as Hlen.
  unfold bind at 1. unfold lift at 1. cbv beta iota.
  destruct (truthy (o_outputPath o)); intros E.
  - split; [|exists s; split; [reflexivity | exact Hlen]].
    refine (returns_store _ _ _ (fun r => size r = lit "1KB") _ _ _ _ E).
    intros p _. cbn [size]. apply size_kb_1. lia.
  - split; [|exists s; split; [reflexivity | exact Hlen]].
    refine (returns_ret _ (fun r => size r = lit "1KB") _ _ _ _ E).
    cbn [size]. apply size_kb_1. lia.
Qed.

End SvgSize.


Lemma own_property_absent {A} (key : jsstring) (l : list (jsstring * A)) :
  ~ In key (map fst l) -> own_property key l = None.
Proof.
  induction l as [|[k v] l IH]; [reflexivity|]. cbn [map fst In own_property].
  intros Hn. destruct (jsstring_eqb k key) eqn:E.
  - apply jsstring_eqb_eq in E. tauto.
  - apply IH. tauto.
Qed.

(** X18. The palette by the name of the theme, for every theme value:
    the palette of that name for default, dark, forest and neutral; for a
    name that is a property of [Object.prototype], the inherited object,
    whose four colors all read [undefined]; the default palette for every
    other name. *)
Theorem theme_palette_is_chosen_by_name (theme : JsVal) :
  let key := ToString theme in
  (forall p, In (key, p) themes -> getThemeColors theme = OwnPalette p)
  /\ (In key object_prototype_properties ->
      getThemeColors theme = Inherited key
      /\ forall field, color field (getThemeColors theme) = JUndefined)
  /\ (~ In key (map fst themes) -> ~ In key object_prototype_properties ->
      getThemeColors theme = OwnPalette theme_default).
Proof.
  intros key. unfold getThemeColors. fold key. clearbody key. split; [|split].
  - intros p Hp. unfold themes in Hp. cbn [In] in Hp.
    destruct Hp as [Hp|[Hp|[Hp|[Hp|[]]]]]; injection Hp as <- <-;
      vm_compute; reflexivity.
  - intros Hk.
    assert (Hown : own_property key themes = None).
    { unfold object_prototype_properties in Hk. cbn [In] in Hk.
      repeat (destruct Hk as [<-|Hk]; [vm_compute; reflexivity|]).
      contradiction. }
    rewrite Hown. rewrite (proj2 (has_key_In _ _) Hk).
    split; [reflexivity | intros field; reflexivity].
  - intros Hn Hp. rewrite (own_property_absent _ _ Hn).
    destruct (has_key key object_prototype_properties) eqn:E; [|reflexivity].
    apply has_key_In in E. contradiction.
Qed.

(** ** Runs on the in-memory runtime *)

(** C2, counterexample: the empty string supplied as output path. *)
Lemma empty_output_path_returns_base64 :
  o_outputPath (export_example (JStr (lit "svg")) JUndefined (JStr [])) = JStr []
  /\ exists r st1,
      exportDiagram (export_example (JStr (lit "svg")) JUndefined (JStr [])) st0
      = (inr r, st1)
      /\ outputPath r = None
      /\ is_Some (base64Data r).
Proof.
  split; [reflexivity|]. eexists _, _. split; [vm_compute; reflexivity|].
  split; [reflexivity | eexists; reflexivity].
Qed.

Lemma export_result_mode_witness :
  exists r st1,
    exportDiagram (export_example (JStr (lit "svg")) (JStr (lit "dark"))
                                  (JStr (lit "/tmp/out.svg"))) st0 = (inr r, st1)
    /\ success r = true
    /\ outputPath r = Some (lit "/tmp/out.svg")
    /\ base64Data r = None.
Proof.
  eexists _, _.
  match goal with
  | |- ?A /\ _ => assert (E : A); [vm_compute; reflexivity | split; [exact E|]]
  end.
  destruct (export_result_mode _ _ _ _ E) as (Hs & _ & Hfile & _).
  destruct (Hfile (lit "/tmp/out.svg")) as (Ho & Hb);
    [reflexivity | vm_compute; discriminate |].
  split; [exact Hs | split; [exact Ho | exact Hb]].
Defined.

(** C5, counterexample: svg is a supported format, and the export throws
    because its output path is a directory. *)
Lemma svg_export_to_directory_throws :
  o_format (export_example (JStr (lit "svg")) JUndefined (JStr (lit "/")))
  = JStr (format_name SVG)
  /\ fst (exportDiagram (export_example (JStr (lit "svg")) JUndefined (JStr (lit "/")))
                        st0)
     = inl eisdir_root.
Proof. split; vm_compute; reflexivity. Qed.

Lemma export_fails_on_format_or_write_witness :
  (exists st1,
      exportDiagram (export_example (JStr (lit "gif")) JUndefined JUndefined) st0
      = (inl (JsError (lit "Unsupported format: gif")), st1))
  /\ (exists r st1,
         exportDiagram (export_example (JStr (lit "svg")) JUndefined
                                       (JStr (lit "/tmp/out.svg"))) st0 = (inr r, st1)
         /\ success r = true).
Proof.
  split.
  - apply (proj1 (export_fails_on_format_or_write
                    (export_example (JStr (lit "gif")) JUndefined JUndefined) st0)).
    intros f. destruct f; vm_compute; discriminate.
  - destruct (proj2 (export_fails_on_format_or_write
                       (export_example (JStr (lit "svg")) JUndefined
                                       (JStr (lit "/tmp/out.svg"))) st0)
                    SVG (lit "flowchart TD\nA-->B") eq_refl eq_refl)
      as (_ & Hfile & _).
    edestruct (Hfile (lit "/tmp/out.svg")) as (r & st1 & Hr & Hs & _).
    + reflexivity.
    + vm_compute. discriminate.
    + vm_compute. reflexivity.
    + exists r, st1. split; assumption.
Defined.

(** C8, counterexample: png and pdf exports of the empty source throw when
    the output path is a directory. *)
Lemma placeholder_export_to_directory_throws :
  fst (exportDiagram (export_of_empty_source (JStr (lit "png")) (JStr (lit "/"))) st0)
  = inl eisdir_root
  /\ fst (exportDiagram (export_of_empty_source (JStr (lit "pdf")) (JStr (lit "/"))) st0)
     = inl eisdir_root.
Proof. split; vm_compute; reflexivity. Qed.

Lemma placeholder_exports_witness :
  exists r st1,
    exportDiagram (export_of_empty_source (JStr (lit "png")) JUndefined) st0
    = (inr r, st1)
    /\ fs st1 = fs st0
    /\ success r = true
    /\ outputPath r = None
    /\ base64Data r = Some png_base64
    /\ size r = lit "~150KB".
Proof.
  apply (proj1 (placeholder_exports PNG []
                  (export_of_empty_source (JStr (lit "png")) JUndefined) st0
                  (or_introl eq_refl) eq_refl eq_refl)).
  reflexivity.
Defined.

Lemma export_payload_is_deterministic_witness :
  exists r1 st1 r2 st2,
    exportDiagram (export_example (JStr (lit "html")) (JStr (lit "dark"))
                                  (JStr (lit "/tmp/a.html"))) st0 = (inr r1, st1)
    /\ exportDiagram (export_example (JStr (lit "html")) (JStr (lit "dark"))
                                     (JStr (lit "/tmp/b.html"))) st1 = (inr r2, st2)
    /\ readFile (fs st2) (lit "/tmp/b.html") = readFile (fs st1) (lit "/tmp/a.html").
Proof.
  eexists _, _, _, _.
  match goal with
  | |- ?A /\ _ => assert (E1 : A); [vm_compute; reflexivity | split; [exact E1|]]
  end.
  match goal with
  | |- ?A /\ _ => assert (E2 : A); [vm_compute; reflexivity | split; [exact E2|]]
  end.
  eapply (proj2 (export_payload_is_deterministic
                   (export_example (JStr (lit "html")) (JStr (lit "dark")) JUndefined))
                HTML (lit "flowchart TD\nA-->B") (lit "/tmp/a.html") (lit "/tmp/b.html")).
  - reflexivity.
  - reflexivity.
  - vm_compute. discriminate.
  - vm_compute. discriminate.
  - exact E1.
  - exact E2.
Defined.

Lemma callTool_degrades_every_failure_witness :
  fst (callTool (export_request (JStr (lit "svg")) (JStr (lit "/"))) st0)
  = {| content :=
         [ text_block
             (lit "Error executing export_diagram_formats: Failed to export diagram: EISDIR: illegal operation on a directory, open '/'") ] |}
  /\ fst (callTool {| r_name := lit "render_diagram"; arguments := None |} st0)
     = {| content :=
            [ text_block
                (lit "Error executing render_diagram: Unknown tool: render_diagram") ] |}.
Proof.
  split.
  - destruct (callTool_degrades_every_failure
                (export_request (JStr (lit "svg")) (JStr (lit "/"))) st0)
      as (_ & Hfail & _).
    edestruct Hfail as (Hr & _).
    + vm_compute. reflexivity.
    + exact Hr.
  - destruct (callTool_degrades_every_failure
                {| r_name := lit "render_diagram"; arguments := None |} st0)
      as (_ & _ & Hunknown & _).
    destruct Hunknown as (Hr & _).
    + vm_compute. intuition discriminate.
    + exact Hr.
Defined.




Lemma only_an_export_to_a_path_writes_witness :
  truthy (prop (obj [ (lit "diagram_code", example_code);
                      (lit "format", JStr (lit "html"));
                      (lit "output_path", JStr []) ]) (lit "output_path")) = false
  /\ fs (snd (callTool (export_request (JStr (lit "html")) (JStr [])) st0)) = fs st0.
Proof.
  split; [vm_compute; reflexivity|].
  apply (only_an_export_to_a_path_writes
           (export_request (JStr (lit "html")) (JStr [])) st0).
  intros _ a Ha. injection Ha as <-. vm_compute. reflexivity.
Defined.


Lemma workflow_description_is_cut_at_100_witness :
  prop workflow_example (lit "workflow_type") = JStr (lit "cicd")
  /\ prop workflow_example (lit "workflow_description")
     = JStr (lit "build, test, deploy")
  /\ exists before,
      fst (callTool {| r_name := lit "create_workflow_diagram";
                       arguments := Some workflow_example |} st0)
      = {| content := [ text_block (before ++ lit "\n- **Generated from**: "
                                           ++ lit "build, test, deploy") ] |}.
Proof.
  assert (Ht : prop workflow_example (lit "workflow_type") = JStr (lit "cicd"))
    by (vm_compute; reflexivity).
  assert (Hd : prop workflow_example (lit "workflow_description")
               = JStr (lit "build, test, deploy")) by (vm_compute; reflexivity).
  split; [exact Ht|]. split; [exact Hd|].
  destruct (workflow_description_is_cut_at_100 (W:=MemFs)
              workflow_example st0 _ _ Ht Hd)
    as (before & shown & Hr & Hshort & _).
  exists before. rewrite <- (Hshort ltac:(vm_compute; lia)). exact Hr.
Defined.

Lemma missing_arguments_object_is_reported_witness :
  exists t,
    In t listTools
    /\ name t = lit "export_diagram_formats"
    /\ fst (callTool {| r_name := name t; arguments := None |} st0)
       = error_response (name t)
           (lit "Cannot destructure property 'diagram_code' of 'args' as it is undefined.").
Proof.
  unfold listTools. eexists. split; [do 4 right; left; reflexivity|].
  split; [reflexivity|].
  match goal with
  | |- fst (callTool {| r_name := name ?t; arguments := None |} _) = _ =>
    destruct (missing_arguments_object_is_reported (W:=MemFs) t st0)
      as (first & Hfirst & Hr & _)
  end.
  - do 4 right; left; reflexivity.
  - rewrite Hr. vm_compute in Hfirst. injection Hfirst as <-.
    vm_compute. reflexivity.
Defined.

Lemma export_rejects_a_path_that_is_no_string_witness :
  truthy (JNum 5) = true
  /\ (forall p, JNum 5 <> JStr p)
  /\ exists st1,
      exportDiagram (export_example (JStr (lit "pdf")) JUndefined (JNum 5)) st0
      = (inl (JsError (lit "The \qpath\q argument must be of type string. Received type number (5)")),
         st1)
      /\ fs st1 = fs st0.
Proof.
  split; [reflexivity|]. split; [discriminate|].
  destruct (export_rejects_a_path_that_is_no_string (W:=MemFs)
              PDF (lit "flowchart TD\nA-->B")
              (export_example (JStr (lit "pdf")) JUndefined (JNum 5)) st0
              eq_refl eq_refl eq_refl ltac:(discriminate))
    as (e & st1 & He & Hpath & Hfs & _).
  vm_compute in Hpath. injection Hpath as <-.
  exists st1. split; [|exact Hfs].
  rewrite He. apply (f_equal (fun x => (inl x, st1))). vm_compute. reflexivity.
Defined.

Lemma export_of_a_source_that_is_no_string_witness :
  (forall s, JNum 42 <> JStr s)
  /\ (exists st1,
         exportDiagram {| o_diagramCode := JNum 42; o_format := JStr (lit "svg");
                          o_theme := JUndefined; o_width := JUndefined;
                          o_height := JUndefined; o_outputPath := JUndefined |} st0
         = (inl (JsError (lit "diagramCode.slice is not a function")), st1))
  /\ (exists r st1,
         exportDiagram {| o_diagramCode := JNum 42; o_format := JStr (lit "png");
                          o_theme := JUndefined; o_width := JUndefined;
                          o_height := JUndefined; o_outputPath := JUndefined |} st0
         = (inr r, st1) /\ success r = true).
Proof.
  split; [discriminate|]. split.
  - destruct (proj1 (export_of_a_source_that_is_no_string (W:=MemFs)
                       {| o_diagramCode := JNum 42; o_format := JStr (lit "svg");
                          o_theme := JUndefined; o_width := JUndefined;
                          o_height := JUndefined; o_outputPath := JUndefined |} st0
                       ltac:(discriminate)) (or_introl eq_refl))
      as (st1 & He & _).
    exists st1. rewrite He. apply (f_equal (fun x => (inl x, st1))).
    vm_compute. reflexivity.
  - destruct (proj2 (export_of_a_source_that_is_no_string (W:=MemFs)
                       {| o_diagramCode := JNum 42; o_format := JStr (lit "png");
                          o_theme := JUndefined; o_width := JUndefined;
                          o_height := JUndefined; o_outputPath := JUndefined |} st0
                       ltac:(discriminate)) (or_introl eq_refl) eq_refl)
      as (r & st1 & He & Hs & _).
    exists r, st1. split; [exact He | exact Hs].
Defined.


Lemma inline_payload_decodes_to_the_file_bytes_witness :
  code_units (lit "flowchart TD\nA-->B")
  /\ code_units (lit "dark")
  /\ exists r b data st1 r',
      fst (exportDiagram (export_example (JStr (lit "html")) (JStr (lit "dark"))
                                         JUndefined) st0) = inr r
      /\ base64Data r = Some b
      /\ base64_decode b = Some data
      /\ exportDiagram (export_example (JStr (lit "html")) (JStr (lit "dark"))
                                       (JStr (lit "/tmp/a.html"))) st0 = (inr r', st1)
      /\ readFile (fs st1) (lit "/tmp/a.html") = Some data.
Proof.
  assert (Hs : code_units (lit "flowchart TD\nA-->B"))
    by (apply ascii_text_code_units, forallb_ascii_text; reflexivity).
  assert (Ht : code_units (lit "dark"))
    by (apply ascii_text_code_units, forallb_ascii_text; reflexivity).
  split; [exact Hs|]. split; [exact Ht|].
  destruct (inline_payload_decodes_to_the_file_bytes (W:=MemFs)
              HTML (lit "flowchart TD\nA-->B")
              (export_example (JStr (lit "html")) (JStr (lit "dark")) JUndefined) st0
              (or_intror eq_refl) eq_refl eq_refl Hs Ht)
    as (r & b & data & Hr & Hb & Hdec & _ & Hfile).
  exists r, b, data. eexists _, _.
  split; [exact Hr|]. split; [exact Hb|]. split; [exact Hdec|].
  match goal with
  | |- ?A /\ _ => assert (E : A); [vm_compute; reflexivity | split; [exact E|]]
  end.
  exact (proj1 (Hfile 47 (lit "tmp/a.html") _ _ _ E)).
Defined.

Lemma placeholder_file_is_not_the_inline_image_witness :
  exists r b image st1 r' written,
    fst (exportDiagram (export_example (JStr (lit "png")) JUndefined JUndefined) st0)
    = inr r
    /\ base64Data r = Some b
    /\ base64_decode b = Some image
    /\ exportDiagram (export_example (JStr (lit "png")) JUndefined
                                     (JStr (lit "/tmp/a.png"))) st0 = (inr r', st1)
    /\ readFile (fs st1) (lit "/tmp/a.png") = Some written
    /\ written <> image.
Proof.
  destruct (placeholder_file_is_not_the_inline_image (W:=MemFs)
              PNG (lit "flowchart TD\nA-->B")
              (export_example (JStr (lit "png")) JUndefined JUndefined) st0
              (or_introl eq_refl) eq_refl eq_refl)
    as (r & b & image & Hr & Hb & Hdec & _ & Hfile).
  exists r, b, image.
  assert (E : exists st1 r',
             exportDiagram (export_example (JStr (lit "png")) JUndefined
                                           (JStr (lit "/tmp/a.png"))) st0
             = (inr r', st1))
    by (eexists _, _; vm_compute; reflexivity).
  destruct E as (st1 & r' & E).
  destruct (Hfile 47 (lit "tmp/a.png") _ _ _ E) as (written & Hread & _ & Hne & _).
  exists st1, r', written.
  split; [exact Hr|]. split; [exact Hb|]. split; [exact Hdec|].
  split; [exact E|]. split; [exact Hread | exact Hne].
Defined.

Lemma svg_export_always_reports_1KB_witness :
  exists r st1,
    exportDiagram (export_example (JStr (lit "svg")) (JStr (lit "forest")) JUndefined)
                  st0 = (inr r, st1)
    /\ size r = lit "1KB".
Proof.
  eexists _, _.
  match goal with
  | |- ?A /\ _ => assert (E : A); [vm_compute; reflexivity | split; [exact E|]]
  end.
  exact (proj1 (svg_export_always_reports_1KB (W:=MemFs)
                  (export_example (JStr (lit "svg")) (JStr (lit "forest")) JUndefined)
                  st0 _ _ eq_refl E)).
Defined.


